(** * usePropTypes: the runtime prop-type validator

    A shallow embedding of [validators], [types] and [validateType] of
    [hooks/usePropTypes], with the properties of the validator engine
    stated against it.

    Conventions of the embedding.

    - A JavaScript value is a [value]: the primitives, and arrays, objects
      and functions carrying a [header] with their identity ([loc]) and the
      constructors whose [prototype] lies on their prototype chain
      ([protos]).  Symbols and BigInts are outside the universe.
    - An object holds its own enumerable properties as an association list
      in [Object.keys] order, with pairwise distinct keys.  A property that
      is not its own is read from [Object.prototype] when [Object] is among
      the constructors of the header, as it is for an object literal; what
      a class of the program puts on the chain is not represented.
    - A JavaScript number is an IEEE 754 value, [spec_float].
    - A message is kept as the sequence of the literal chunks and the
      interpolated values of its template literal: the text that the host's
      [ToString] and [JSON.stringify] produce is not computed.  Whether
      [ToString] produces a text at all is: interpolating an object whose
      [toString] is no function throws a TypeError.  Functions are opaque:
      one that an object holds as its [toString] or [valueOf] is taken to
      return a primitive.
    - A computation that can throw returns a [comp]. *)

From Stdlib Require Import List String Bool Arith ZArith Lia.
From Stdlib Require Import Floats.SpecFloat.
From Stdlib Require Import Decimal DecimalString.
Import ListNotations.
Local Open Scope string_scope.
Local Open Scope list_scope.
Local Set Warnings "-register-all".

(** ** The value universe *)

Module Js.

Record header := { loc : nat; protos : list nat }.

Inductive value :=
| VUndefined
| VNull
| VBool (b : bool)
| VNum (x : spec_float)
| VStr (s : string)
| VArr (h : header) (items : list value)
| VObj (h : header) (props : list (string * value))
| VFun (h : header) (name : string).

(** The double nearest to an integer; [num 5] is the literal [5]. *)
Definition num (z : Z) : spec_float := binary_normalize 53 1024 z 0 false.

Definition NaN : spec_float := S754_nan.

(** The header without constructors, of an array or object that inherits
    nothing.  The arrays the validators allocate themselves carry it: they
    are only ever serialised, never compared. *)
Definition anon : header := {| loc := 0; protos := [] |}.

(** [typeof v] *)
Definition typeof (v : value) : string :=
  match v with
  | VUndefined => "undefined"
  | VNull => "object"
  | VBool _ => "boolean"
  | VNum _ => "number"
  | VStr _ => "string"
  | VArr _ _ => "object"
  | VObj _ _ => "object"
  | VFun _ _ => "function"
  end.

(** [Array.isArray(v)] *)
Definition Array_isArray (v : value) : bool :=
  match v with VArr _ _ => true | _ => false end.

Definition is_nan (x : spec_float) : bool :=
  match x with S754_nan => true | _ => false end.

(** [x === y] (IsStrictlyEqual): numbers by IEEE equality, so that
    [NaN !== NaN] and [+0 === -0]; references by identity. *)
Definition strict_equals (x y : value) : bool :=
  match x, y with
  | VUndefined, VUndefined => true
  | VNull, VNull => true
  | VBool a, VBool b => Bool.eqb a b
  | VNum a, VNum b => SFeqb a b
  | VStr a, VStr b => String.eqb a b
  | VArr h _, VArr h' _ => Nat.eqb (loc h) (loc h')
  | VObj h _, VObj h' _ => Nat.eqb (loc h) (loc h')
  | VFun h _, VFun h' _ => Nat.eqb (loc h) (loc h')
  | _, _ => false
  end.

(** SameValueZero, the comparison of [Array.prototype.includes]: as [===]
    but [NaN] equals [NaN]. *)
Definition same_value_zero (x y : value) : bool :=
  match x, y with
  | VNum a, VNum b => SFeqb a b || (is_nan a && is_nan b)
  | _, _ => strict_equals x y
  end.

(** [arr.includes(x)] *)
Definition includes (arr : list value) (x : value) : bool :=
  existsb (fun e => same_value_zero e x) arr.

(** ToBoolean *)
Definition truthy (v : value) : bool :=
  match v with
  | VUndefined | VNull => false
  | VBool b => b
  | VNum x => match x with S754_zero _ | S754_nan => false | _ => true end
  | VStr s => negb (String.eqb s "")
  | _ => true
  end.

(** IsCallable *)
Definition callable (v : value) : bool :=
  match v with VFun _ _ => true | _ => false end.

(** *** Properties *)

(** Own property lookup in an association list, [undefined] when the key
    is absent. *)
Fixpoint lookup (k : string) (props : list (string * value)) : value :=
  match props with
  | [] => VUndefined
  | (k', v) :: rest => if String.eqb k' k then v else lookup k rest
  end.

(** The key is one of the own keys. *)
Definition own (k : string) (props : list (string * value)) : bool :=
  existsb (String.eqb k) (map fst props).

(** The names of the functions of [Object.prototype]. *)
Definition Object_prototype_functions : list string :=
  ["constructor"; "__defineGetter__"; "__defineSetter__"; "hasOwnProperty";
   "__lookupGetter__"; "__lookupSetter__"; "isPrototypeOf";
   "propertyIsEnumerable"; "toString"; "valueOf"; "toLocaleString"].

(** The place of a name in a list, counted from [i]. *)
Fixpoint position (k : string) (names : list string) (i : nat) : option nat :=
  match names with
  | [] => None
  | n :: rest => if String.eqb n k then Some i else position k rest (S i)
  end.

(** The location of the constructor [Object]; the functions of
    [Object.prototype] are given the locations 1 to 11 in the order above,
    and the prototype the location 12. *)
Definition Object_loc : nat := 1.

(** [Object.prototype[k]]: one of its functions ([constructor] is
    [Object]), the prototype itself under [__proto__], which has no
    enumerable key and is read as the objects that inherit from it are,
    else [undefined]. *)
Definition Object_prototype (k : string) : value :=
  match position k Object_prototype_functions Object_loc with
  | Some i =>
      VFun {| loc := i; protos := [] |}
           (if String.eqb k "constructor" then "Object" else k)
  | None =>
      if String.eqb k "__proto__"
      then VObj {| loc := 12; protos := [Object_loc] |} []
      else VUndefined
  end.

(** [Object.prototype] is on the chain of a value with this header. *)
Definition inherits_Object (h : header) : bool :=
  existsb (Nat.eqb Object_loc) (protos h).

(** The header of an object written as a literal, [{...}]. *)
Definition literal : header := {| loc := 0; protos := [Object_loc] |}.

(** [o[k]] for a string key: an own property of the object, else what
    [Object.prototype] holds under the key when the object inherits from
    it.  Of a value that is no object only the keys [types], [options],
    [clazz], [shapeObj], [strict], [min] and [max] are ever read, which no
    built-in prototype defines. *)
Definition get (o : value) (k : string) : value :=
  match o with
  | VObj h props =>
      if own k props then lookup k props
      else if inherits_Object h then Object_prototype k
      else VUndefined
  | _ => VUndefined
  end.

(** [k in o] for an object or array [o] and one of the keys [validator]
    and [type], which [Object.prototype] does not define. *)
Definition has (o : value) (k : string) : bool :=
  match o with
  | VObj _ props => existsb (String.eqb k) (map fst props)
  | _ => false
  end.

(** [Object.keys(o)] and [Object.values(o)] *)
Definition Object_keys (o : value) : list string :=
  match o with VObj _ props => map fst props | _ => [] end.

Definition Object_values (o : value) : list value :=
  match o with VObj _ props => map snd props | _ => [] end.

(** [v instanceof clazz] for a constructor [clazz]: its [prototype] is on the
    chain of [v]. *)
Definition instanceof (v clazz : value) : bool :=
  match clazz with
  | VFun c _ =>
      match v with
      | VArr h _ | VObj h _ | VFun h _ => existsb (Nat.eqb (loc c)) (protos h)
      | _ => false
      end
  | _ => false
  end.

(** *** Messages *)

(** The pieces of a template literal. *)
Inductive chunk :=
| Lit (s : string)                       (* literal text *)
| Str (v : value)                        (* ${v} *)
| Json (v : value)                       (* ${JSON.stringify(v)} *)
| JsonList (vs : list value)             (* ${JSON.stringify([...vs])} *)
| Join (sep : string) (parts : list chunk). (* ${parts.join(sep)} *)

Definition message := list chunk.

(** *** Thrown errors *)

Inductive error :=
| TypeError
| Error (m : message).

Inductive comp (A : Type) :=
| Ret (a : A)
| Throw (e : error).

Arguments Ret {A} a.
Arguments Throw {A} e.

Definition bind {A B : Type} (c : comp A) (k : A -> comp B) : comp B :=
  match c with
  | Ret a => k a
  | Throw e => Throw e
  end.

(** [a || b] on conditions that may throw. *)
Definition orelse (a b : comp bool) : comp bool :=
  bind a (fun x => if x then Ret true else b).

(** [l.some(f)] for a callback that may throw: left to right, stopping at
    the first [true]. *)
Section Some.
Context {A : Type} (f : A -> comp bool).

Fixpoint some (l : list A) : comp bool :=
  match l with
  | [] => Ret false
  | x :: rest => bind (f x) (fun b => if b then Ret true else some rest)
  end.
End Some.

(** [l.every(f)]: left to right, stopping at the first [false]. *)
Section Every.
Context {A : Type} (f : A -> comp bool).

Fixpoint every (l : list A) : comp bool :=
  match l with
  | [] => Ret true
  | x :: rest => bind (f x) (fun b => if b then every rest else Ret false)
  end.
End Every.

(** [l.filter(f)] for a callback that may throw. *)
Section FilterM.
Context {A : Type} (f : A -> comp bool).

Fixpoint filterM (l : list A) : comp (list A) :=
  match l with
  | [] => Ret []
  | x :: rest =>
      bind (f x) (fun keep =>
      bind (filterM rest) (fun ys => Ret (if keep then x :: ys else ys)))
  end.
End FilterM.

(** [l.map(f)] for a callback that may throw. *)
Section MapM.
Context {A B : Type} (f : A -> comp B).

Fixpoint mapM (l : list A) : comp (list B) :=
  match l with
  | [] => Ret []
  | x :: rest =>
      bind (f x) (fun y => bind (mapM rest) (fun ys => Ret (y :: ys)))
  end.
End MapM.

(** *** Conversions *)

(** ToString throws a TypeError.  An object is converted by its [toString]
    (its own, else that of [Object.prototype]) and, when that is no
    function, by its [valueOf]; the [valueOf] of [Object.prototype] returns
    the object, which is no primitive, so the conversion fails unless the
    object has a [valueOf] of its own.  An array is converted by [join],
    which converts each element other than [undefined] and [null]. *)
Fixpoint ToString_throws (v : value) : bool :=
  match v with
  | VObj h props =>
      negb (callable (get (VObj h props) "toString"))
      && negb (own "valueOf" props && callable (lookup "valueOf" props))
  | VArr _ items =>
      existsb (fun x => match x with
                        | VUndefined | VNull => false
                        | _ => ToString_throws x
                        end) items
  | _ => false
  end.

(** [${v}] in a template literal. *)
Definition ToString (v : value) : comp chunk :=
  if ToString_throws v then Throw TypeError else Ret (Str v).

(** ToNumber, as the relational operators apply it to an operand.  An
    object or array is first converted to a primitive, which fails as for
    ToString.  A string operand is parsed by the host (StringToNumber) and
    an array goes through its [join]; neither is reproduced, both read as
    [NaN]. *)
Definition ToNumber (v : value) : comp spec_float :=
  match v with
  | VUndefined => Ret NaN
  | VNull => Ret (S754_zero false)
  | VBool true => Ret (num 1)
  | VBool false => Ret (S754_zero false)
  | VNum x => Ret x
  | VArr _ _ | VObj _ _ => if ToString_throws v then Throw TypeError else Ret NaN
  | _ => Ret NaN
  end.

(** [a < b] and [a > b] with a numeric right operand. *)
Definition less (a : value) (b : spec_float) : comp bool :=
  bind (ToNumber a) (fun x => Ret (SFltb x b)).
Definition greater (a : value) (b : spec_float) : comp bool :=
  bind (ToNumber a) (fun x => Ret (SFltb b x)).

End Js.

Export Js.

Notation "x <- c ;; k" := (bind c (fun x => k))
  (at level 61, c at next level, right associativity).

(** ** The validators *)

Module validators.

(** The own keys of the [validators] object.  The object also inherits
    the functions of [Object.prototype]; they are not part of the
    embedding. *)
Inductive vname :=
| Nstring | Nnumber | Nbool | Narray | Nobject | Nundefined | Nnull
| Nfunction | NarrayOf | NoneOf | NoneOfType | NinstanceOf | Nshape | Nrange
| Ntype.

Definition vname_of_string (s : string) : option vname :=
  if String.eqb s "string" then Some Nstring
  else if String.eqb s "number" then Some Nnumber
  else if String.eqb s "bool" then Some Nbool
  else if String.eqb s "array" then Some Narray
  else if String.eqb s "object" then Some Nobject
  else if String.eqb s "undefined" then Some Nundefined
  else if String.eqb s "null" then Some Nnull
  else if String.eqb s "function" then Some Nfunction
  else if String.eqb s "arrayOf" then Some NarrayOf
  else if String.eqb s "oneOf" then Some NoneOf
  else if String.eqb s "oneOfType" then Some NoneOfType
  else if String.eqb s "instanceOf" then Some NinstanceOf
  else if String.eqb s "shape" then Some Nshape
  else if String.eqb s "range" then Some Nrange
  else if String.eqb s "type" then Some Ntype
  else None.

(** [validators[k]] for an arbitrary key [k]: the member it names, if any.
    The key is converted by ToPropertyKey, which throws as ToString does:
    a string names itself, [undefined] and [null] name the members
    "undefined" and "null", a one-element array names what its element
    does; the text of a boolean, a number, a plain object, a function or a
    longer array is the name of no member. *)
Fixpoint member (k : value) : comp (option vname) :=
  match k with
  | VStr s => Ret (vname_of_string s)
  | VUndefined => Ret (Some Nundefined)
  | VNull => Ret (Some Nnull)
  | VArr h items =>
      if ToString_throws (VArr h items) then Throw TypeError
      else
        match items with
        | [e] =>
            match e with
            | VUndefined | VNull => Ret None
            | _ => member e
            end
        | _ => Ret None
        end
  | VObj h props =>
      if ToString_throws (VObj h props) then Throw TypeError else Ret None
  | _ => Ret None
  end.

(** What a validator returns: [true], a string, or (for the curried
    validators applied to their configuration) a function. *)
Inductive ret :=
| RTrue
| RStr (m : message)
| RClosure (f : vname) (args : list value).

(** [r === true] *)
Definition is_true (r : ret) : bool :=
  match r with RTrue => true | _ => false end.

Definition number (prop : value) : comp ret :=
  if String.eqb (typeof prop) "number" then Ret RTrue
  else c <- ToString prop ;;
       Ret (RStr [Lit "El valor '"; c; Lit "' no es un número."]).

Definition array (prop : value) : comp ret :=
  if Array_isArray prop then Ret RTrue
  else c <- ToString prop ;;
       Ret (RStr [Lit "El valor '"; c; Lit "' no es un arreglo."]).

Definition object (prop : value) : comp ret :=
  if negb (strict_equals prop VNull) && String.eqb (typeof prop) "object"
     && negb (Array_isArray prop)
  then Ret RTrue
  else c <- ToString prop ;;
       Ret (RStr [Lit "El valor '"; c; Lit "' no es un objeto."]).

Definition undefined (prop : value) : comp ret :=
  if String.eqb (typeof prop) "undefined" then Ret RTrue
  else c <- ToString prop ;;
       Ret (RStr [Lit "El valor '"; c; Lit "' no es undefined."]).

Definition null (prop : value) : comp ret :=
  if strict_equals prop VNull then Ret RTrue
  else c <- ToString prop ;;
       Ret (RStr [Lit "El valor '"; c; Lit "' no es null."]).

Definition function (prop : value) : comp ret :=
  if String.eqb (typeof prop) "function" then Ret RTrue
  else c <- ToString prop ;;
       Ret (RStr [Lit "El valor '"; c; Lit "' no es una función."]).

Definition string (prop : value) : comp ret :=
  if String.eqb (typeof prop) "string" then Ret RTrue
  else c <- ToString prop ;;
       Ret (RStr [Lit "El valor '"; c;
                  Lit "' no es una cadena de texto (string)."]).

Definition bool (prop : value) : comp ret :=
  if String.eqb (typeof prop) "boolean" then Ret RTrue
  else c <- ToString prop ;;
       Ret (RStr [Lit "El valor '"; c; Lit "' no es un booleano."]).

(** [validators.type(prop)]: the label of the first basic validator that
    accepts [prop]; each validator that refuses builds its message. *)
Definition type (prop : value) : comp String.string :=
  r <- array prop ;;
  if is_true r then Ret "array" else
  r <- object prop ;;
  if is_true r then Ret "object" else
  r <- null prop ;;
  if is_true r then Ret "null" else
  r <- undefined prop ;;
  if is_true r then Ret "undefined" else
  r <- string prop ;;
  if is_true r then Ret "string" else
  r <- number prop ;;
  if is_true r then Ret "number" else
  r <- bool prop ;;
  if is_true r then Ret "bool" else
  r <- function prop ;;
  if is_true r then Ret "function" else
  Ret (typeof prop).

(** [validators[n](arg)]: a basic validator answers, [type] returns its
    label, a curried validator returns the function awaiting the value. *)
Definition call (n : vname) (arg : value) : comp ret :=
  match n with
  | Nstring => string arg
  | Nnumber => number arg
  | Nbool => bool arg
  | Narray => array arg
  | Nobject => object arg
  | Nundefined => undefined arg
  | Nnull => null arg
  | Nfunction => function arg
  | Ntype => label <- type arg ;; Ret (RStr [Lit label])
  | _ => Ret (RClosure n [arg])
  end.

(** [validators[k](item) === true]; calling what is no member throws. *)
Definition satisfies (k item : value) : comp Datatypes.bool :=
  m <- member k ;;
  match m with
  | Some n => r <- call n item ;; Ret (is_true r)
  | None => Throw TypeError
  end.

(** [typeof validators[type] === 'function'] *)
Definition is_member (t : value) : comp Datatypes.bool :=
  m <- member t ;;
  Ret (match m with Some _ => true | None => false end).

(** [types.every(type => typeof validators[type] === 'function')] *)
Definition all_members (types : list value) : comp Datatypes.bool :=
  every is_member types.

Definition arrayOf (types prop : value) : comp ret :=
  match types with
  | VArr _ ts =>
      valid <- all_members ts ;;
      if negb valid then
        Ret (RStr [Lit "El array de tipos proporcionado a arrayOf no es válido."])
      else if Nat.eqb (List.length ts) 0 then
        Ret (RStr [Lit "El array de tipos proporcionado a arrayOf no puede estar vacío."])
      else
        match prop with
        | VArr _ items =>
            invalidItems <-
              filterM (fun item =>
                         ok <- some (fun t => satisfies t item) ts ;;
                         Ret (negb ok)) items ;;
            if Nat.eqb (List.length invalidItems) 0 then Ret RTrue
            else Ret (RStr [Lit "El arreglo contiene elementos inválidos: ";
                            JsonList invalidItems])
        | _ =>
            c <- ToString prop ;;
            Ret (RStr [Lit "El valor '"; c; Lit "' no es un arreglo."])
        end
  | _ => Ret (RStr [Lit "El array de tipos proporcionado a arrayOf no es válido."])
  end.

Definition oneOf (options prop : value) : comp ret :=
  match options with
  | VArr _ opts =>
      if Nat.eqb (List.length opts) 0 then
        Ret (RStr [Lit "El array de opciones proporcionado a oneOf no puede estar vacío."])
      else if includes opts prop then Ret RTrue
      else
        c <- ToString prop ;;
        Ret (RStr [Lit "El valor '"; c;
                   Lit "' no está entre las opciones permitidas: "; Json options])
  | _ => Ret (RStr [Lit "El array de opciones proporcionado a oneOf no es válido."])
  end.

Definition oneOfType (types prop : value) : comp ret :=
  match types with
  | VArr _ ts =>
      valid <- all_members ts ;;
      if negb valid then
        Ret (RStr [Lit "El array de tipos proporcionado a oneOfType no es válido."])
      else
        match ts with
        | [] =>
            Ret (RStr [Lit "El array de tipos proporcionado a oneOfType no puede estar vacío."])
        | [t] =>
            m <- member t ;;
            match m with
            | Some n => call n prop
            | None => Throw TypeError
            end
        | _ =>
            ok <- some (fun t => satisfies t prop) ts ;;
            if ok then Ret RTrue
            else
              again <- some (fun t => satisfies t prop) ts ;;
              if again then Ret RTrue
              else
                c <- ToString prop ;;
                Ret (RStr [Lit "El valor '"; c;
                           Lit "' no cumple con ninguno de los tipos permitidos: ";
                           Json types])
        end
  | _ => Ret (RStr [Lit "El array de tipos proporcionado a oneOfType no es válido."])
  end.

Definition instanceOf (clazz prop : value) : comp ret :=
  match clazz with
  | VFun _ name =>
      if negb (String.eqb (typeof prop) "object") || strict_equals prop VNull then
        c <- ToString prop ;;
        Ret (RStr [Lit "El valor '"; c; Lit "' no es un objeto."])
      else if instanceof prop clazz then Ret RTrue
      else
        c <- ToString prop ;;
        Ret (RStr [Lit "El valor '"; c; Lit "' no es una instancia de ";
                   Lit name; Lit "."])
  | _ => Ret (RStr [Lit "El validador instanceOf no es válido. Se esperaba una clase."])
  end.

Definition range (min max prop : value) : comp ret :=
  match min, max with
  | VNum lo, VNum hi =>
      if SFltb hi lo then
        Ret (RStr [Lit "El valor min no puede ser mayor que el valor max."])
      else
        match prop with
        | VNum x =>
            if SFltb x lo || SFltb hi x then
              Ret (RStr [Lit "El valor '"; Str prop;
                         Lit "' no está dentro del rango esperado: [";
                         Str min; Lit ", "; Str max; Lit "]"])
            else if SFleb lo x && SFleb x hi then Ret RTrue
            else
              Ret (RStr [Lit "El valor '"; Str prop;
                         Lit "' no está dentro del rango esperado: [";
                         Str min; Lit ", "; Str max; Lit "]"])
        | _ =>
            c <- ToString prop ;;
            Ret (RStr [Lit "El valor '"; c; Lit "' no es un número."])
        end
  | _, _ => Ret (RStr [Lit "Los valores min y max proporcionados a range no son válidos."])
  end.

(** *** [validators.shape] *)

(** The default parameter [strict = 0]. *)
Definition default_strict (strict : value) : value :=
  match strict with VUndefined => VNum (S754_zero false) | _ => strict end.

(** The text of a result used as a string operand of [+]. *)
Definition text (r : ret) : message :=
  match r with
  | RTrue => [Lit "true"]
  | RStr m => m
  | RClosure _ _ => []
  end.

Definition extra_keys (keys propKeys : list String.string) : list String.string :=
  filter (fun key => negb (existsb (String.eqb key) keys)) propKeys.

Definition extra_keys_message (extraKeys : list String.string) : message :=
  [Lit "El objeto tiene claves adicionales no permitidas: ";
   JsonList (map VStr extraKeys); Lit ". Elimina estas claves: ";
   JsonList (map VStr extraKeys); Lit "."].

(** The block [if (strict === 2) { ... }]: [Some m] when it returns [m]. *)
Definition exact_keys (keys propKeys : list String.string) : option message :=
  if negb (Nat.eqb (List.length propKeys) (List.length keys)) then
    Some [Lit "El objeto tiene claves adicionales o faltantes. Claves esperadas: ";
          JsonList (map VStr keys); Lit ", claves recibidas: ";
          JsonList (map VStr propKeys); Lit "."]
  else
    let extraKeys := extra_keys keys propKeys in
    if Nat.ltb 0 (List.length extraKeys) then Some (extra_keys_message extraKeys)
    else None.

(** The block [if (strict === 1) { ... }]. *)
Definition no_extra_keys (keys : list String.string) (prop : value) : option message :=
  let extraKeys := extra_keys keys (Object_keys prop) in
  if Nat.ltb 0 (List.length extraKeys) then Some (extra_keys_message extraKeys)
  else
    let hasAtLeastOneKey :=
      existsb (fun key => negb (strict_equals (get prop key) VUndefined)) keys in
    if negb hasAtLeastOneKey then
      Some [Lit "El objeto debe tener al menos una clave de las esperadas: ";
            JsonList (map VStr keys); Lit "."]
    else None.

(** [Array.isArray(shapeObj[key]) ? shapeObj[key] : [shapeObj[key]]] *)
Definition alternatives (spec : value) : list value :=
  match spec with
  | VArr _ types => types
  | _ => [spec]
  end.

(** The message for a key whose value no alternative accepts; [label] is
    [validators.type(prop[key])]. *)
Definition field_message (key label : String.string) (spec : value) : message :=
  [Lit "La clave '"; Lit key;
   Lit "' del objeto no cumple con los tipos esperados. Valor recibido: ";
   Json (VStr label); Lit ". Tipos esperados: ";
   Join ", " (map (fun t => match t with VStr s => Lit s | _ => Json t end)
                  (alternatives spec));
   Lit "."].

Section Fields.
(** The recursive reference [validators.shape]. *)
Variable self : value -> value -> value -> comp ret.
Variable strict : value.

(** [validators[n](...args)(v) === true] where [args] are the values of
    the entries [rest], that is [Object.values(type).slice(1)].  A basic
    validator and [type] are applied to the first of them and return no
    function, so the second call throws. *)
Definition spread (n : vname) (rest : list (String.string * value)) (v : value)
  : comp Datatypes.bool :=
  let a0 := nth 0 (map snd rest) VUndefined in
  let a1 := nth 1 (map snd rest) VUndefined in
  match n with
  | NarrayOf => r <- arrayOf a0 v ;; Ret (is_true r)
  | NoneOf => r <- oneOf a0 v ;; Ret (is_true r)
  | NoneOfType => r <- oneOfType a0 v ;; Ret (is_true r)
  | NinstanceOf => r <- instanceOf a0 v ;; Ret (is_true r)
  | Nrange => r <- range a0 a1 v ;; Ret (is_true r)
  | Nshape =>
      match rest with
      | [] => Ret false
      | (_, shapeObj) :: rest' =>
          r <- self shapeObj (nth 0 (map snd rest') VUndefined) v ;;
          Ret (is_true r)
      end
  | _ => _ <- call n a0 ;; Throw TypeError
  end.

(** The callback of [types.some(type => ...)] in the loop over the keys,
    applied to the value [v] of the key. *)
Definition field_type_ok (v type : value) : comp Datatypes.bool :=
  match type with
  | VStr s =>
      match vname_of_string s with
      | Some n => r <- call n v ;; Ret (is_true r)
      | None => Ret false
      end
  | VNull => Throw TypeError
  | VObj _ tprops =>
      let validator := lookup "validator" tprops in
      tag <- (if truthy validator then member validator else Ret None) ;;
      match tag with
      | Some n =>
          match tprops with
          | [] => spread n [] v
          | _ :: rest => spread n rest v
          end
      | None => r <- self type strict v ;; Ret (is_true r)
      end
  | _ => Ret false
  end.

Definition field_ok (v spec : value) : comp Datatypes.bool :=
  match spec with
  | VArr _ types => some (field_type_ok v) types
  | _ => some (field_type_ok v) [spec]
  end.

(** [for (let key of keys) { ... } return true], over the entries of
    [shapeObj]: the keys being distinct, [shapeObj[key]] is the value of the
    entry of [key]. *)
Fixpoint fields_loop (prop : value) (fields : list (String.string * value))
  : comp ret :=
  match fields with
  | [] => Ret RTrue
  | (key, spec) :: rest =>
      isValid <- field_ok (get prop key) spec ;;
      if isValid then fields_loop prop rest
      else
        label <- type (get prop key) ;;
        Ret (RStr (field_message key label spec))
  end.
End Fields.

Fixpoint shape (shapeObj strict_arg prop : value) {struct shapeObj} : comp ret :=
  let strict := default_strict strict_arg in
  match shapeObj with
  | VObj _ fields =>
      match prop with
      | VObj _ _ =>
          outside <- orelse (less strict (S754_zero false)) (greater strict (num 2)) ;;
          if outside then
            Ret (RStr [Lit "El valor de strict proporcionado a shape no es válido. Debe ser 0, 1 o 2."])
          else
            validStrict <- number strict ;;
            if negb (is_true validStrict) then
              Ret (RStr (text validStrict ++ [Lit " Debes corregir la propiedad [strict]"]))
            else
              let keys := map fst fields in
              let propKeys := Object_keys prop in
              match (if strict_equals strict (VNum (num 2))
                     then exact_keys keys propKeys else None) with
              | Some m => Ret (RStr m)
              | None =>
                  match (if strict_equals strict (VNum (num 1))
                         then no_extra_keys keys prop else None) with
                  | Some m => Ret (RStr m)
                  | None => fields_loop shape strict prop fields
                  end
              end
      | _ =>
          Ret (RStr [Lit "El valor proporcionado no es un objeto. Valor recibido: ";
                     Json prop; Lit "."])
      end
  | _ =>
      Ret (RStr [Lit "El objeto de forma proporcionado a shape no es válido. Debe ser un objeto no nulo y no un array."])
  end.

End validators.

(** ** The descriptor constructors [types] *)

(** Each constructor allocates an object; [h] is its header. *)
Module types.

Definition string (h : header) : value := VObj h [("type", VStr "string")].
Definition number (h : header) : value := VObj h [("type", VStr "number")].
Definition bool (h : header) : value := VObj h [("type", VStr "bool")].
Definition array (h : header) : value := VObj h [("type", VStr "array")].
Definition object (h : header) : value := VObj h [("type", VStr "object")].
Definition undefined (h : header) : value := VObj h [("type", VStr "undefined")].
Definition null (h : header) : value := VObj h [("type", VStr "null")].
Definition function (h : header) : value := VObj h [("type", VStr "function")].

Definition arrayOf (h : header) (types : value) : value :=
  VObj h [("validator", VStr "arrayOf"); ("types", types)].

Definition oneOf (h : header) (options : value) : value :=
  VObj h [("validator", VStr "oneOf"); ("options", options)].

Definition oneOfType (h : header) (types : value) : value :=
  VObj h [("validator", VStr "oneOfType"); ("types", types)].

Definition instanceOf (h : header) (clazz : value) : value :=
  VObj h [("validator", VStr "instanceOf"); ("clazz", clazz)].

Definition shape (h : header) (shapeObj strict_arg : value) : value :=
  let strict := validators.default_strict strict_arg in
  VObj h [("validator", VStr "shape"); ("shapeObj", shapeObj); ("strict", strict)].

Definition range (h : header) (min max : value) : value :=
  VObj h [("validator", VStr "range"); ("min", min); ("max", max)].

End types.

(** ** [validateType], the dispatcher of [usePropTypes] *)

Definition nl : string := String (Ascii.ascii_of_nat 10) EmptyString.
Definition indent36 : string := "                                    ".
Definition indent32 : string := "                                ".

(** [Object.keys(validators).join(', ')] *)
Definition validators_keys : string :=
  "string, number, bool, array, object, undefined, null, function, arrayOf, oneOf, oneOfType, instanceOf, shape, range, type".

(** [typeof type === 'object' && 'validator' in type ? type.validator
     : typeof type === 'object' && 'type' in type ? type.type : type] *)
Definition validatorKey (type : value) : comp value :=
  match type with
  | VNull => Throw TypeError
  | VObj _ _ | VArr _ _ =>
      Ret (if has type "validator" then get type "validator"
           else if has type "type" then get type "type"
           else type)
  | _ => Ret type
  end.

(** [types.map(t => (typeof t === 'object' && 'type' in t ? t.type : t))];
    a [types] that is no array has no [map]. *)
Definition processedTypes (types : value) : comp (list value) :=
  match types with
  | VArr _ ts =>
      mapM (fun t =>
              match t with
              | VNull => Throw TypeError
              | VObj _ _ => Ret (if has t "type" then get t "type" else t)
              | _ => Ret t
              end) ts
  | _ => Throw TypeError
  end.

Definition invalid_types_message (who : string) (processed : list value) : message :=
  [Lit nl; Lit indent36; Lit "El array de tipos proporcionado a "; Lit who;
   Lit " no es válido."; Lit nl; Lit indent36; Lit "Tipos válidos: ";
   Lit validators_keys; Lit nl; Lit indent36; Lit "Tipos proporcionados: ";
   Join ", " (map Str processed); Lit nl; Lit indent32].

(** The message of the invalid list of kinds is built:
    [processedTypes.join(', ')] converts the kinds as ToString converts
    the array. *)
Definition invalid_types (who : string) (processed : list value)
  : comp validators.ret :=
  _ <- ToString (VArr anon processed) ;;
  Ret (validators.RStr (invalid_types_message who processed)).

Definition unknown_type (validatorKey : value) : error :=
  Error [Lit "El tipo '"; Str validatorKey; Lit "' no es válido."].

(** [throw new Error(`El tipo '${validatorKey}' no es válido.`)] *)
Definition throw_unknown_type (validatorKey : value) : comp validators.ret :=
  _ <- ToString validatorKey ;; Throw (unknown_type validatorKey).

Definition validateType (type prop : value) : comp validators.ret :=
  key <- validatorKey type ;;
  match key with
  | VStr s =>
      match validators.vname_of_string s with
      | Some validators.NarrayOf =>
          ts <- processedTypes (get type "types") ;;
          valid <- validators.all_members ts ;;
          if negb valid then invalid_types "arrayOf" ts
          else validators.arrayOf (VArr anon ts) prop
      | Some validators.NoneOf =>
          validators.oneOf (get type "options") prop
      | Some validators.NoneOfType =>
          ts <- processedTypes (get type "types") ;;
          valid <- validators.all_members ts ;;
          if negb valid then invalid_types "oneOfType" ts
          else validators.oneOfType (VArr anon ts) prop
      | Some validators.NinstanceOf =>
          validators.instanceOf (get type "clazz") prop
      | Some validators.Nshape =>
          validators.shape (get type "shapeObj") (get type "strict") prop
      | Some validators.Nrange =>
          validators.range (get type "min") (get type "max") prop
      | Some validators.Ntype | None => throw_unknown_type key
      | Some n => validators.call n prop
      end
  | _ => throw_unknown_type key
  end.

(** ** Specification-side notions *)

(** The eight primitive kinds of the specification. *)
Inductive kind :=
| Kstring | Knumber | Kbool | Karray | Kobject | Kundefined | Knull | Kfunction.

Definition kind_name (k : kind) : string :=
  match k with
  | Kstring => "string"
  | Knumber => "number"
  | Kbool => "bool"
  | Karray => "array"
  | Kobject => "object"
  | Kundefined => "undefined"
  | Knull => "null"
  | Kfunction => "function"
  end.

(** The runtime type of [v] is exactly [k]. *)
Definition runtime_type_is (k : kind) (v : value) : Prop :=
  match k with
  | Kstring => exists s, v = VStr s
  | Knumber => exists x, v = VNum x
  | Kbool => exists b, v = VBool b
  | Karray => exists h items, v = VArr h items
  | Kobject => v <> VNull /\ typeof v = "object" /\ Array_isArray v = false
  | Kundefined => v = VUndefined
  | Knull => v = VNull
  | Kfunction => exists h name, v = VFun h name
  end.

(** A value that is no object: [undefined], [null], a boolean, a number
    or a string.  Its conversion to text cannot throw. *)
Definition primitive (v : value) : bool :=
  match v with
  | VUndefined | VNull | VBool _ | VNum _ | VStr _ => true
  | _ => false
  end.

(** The object [{toString: 1}]: its [toString] is no function, so it has
    no text. *)
Definition unprintable : value := VObj literal [("toString", VNum (num 1))].




(** A field descriptor that is a plain object and whose [validator] entry
    is missing or falsy: a nested shape. *)
Definition nested_shape (type : value) : Prop :=
  exists h tprops,
    type = VObj h tprops /\ truthy (lookup "validator" tprops) = false.

(** A result reported through the return value: [true] or a message. *)
Definition reported (c : comp validators.ret) : Prop :=
  c = Ret validators.RTrue \/ exists m, c = Ret (validators.RStr m).





(** The descriptor [{type: k}] of a primitive kind, and the list of kinds
    of an arrayOf or oneOfType descriptor as [types.arrayOf([types.string(),
    ...])] builds it. *)
Definition basic (hk : header * kind) : value :=
  VObj (fst hk) [("type", VStr (kind_name (snd hk)))].

Definition kind_key (hk : header * kind) : value := VStr (kind_name (snd hk)).

(** *** Notions used by the further properties *)

Definition not_a_number_message (v : value) : message :=
  [Lit "El valor '"; Str v; Lit "' no es un número."].

Definition strict_correction_message (strict : value) : message :=
  not_a_number_message strict ++ [Lit " Debes corregir la propiedad [strict]"].

Definition invalid_table_message : message :=
  [Lit "El objeto de forma proporcionado a shape no es válido. Debe ser un objeto no nulo y no un array."].

Definition not_an_object_message (prop : value) : message :=
  [Lit "El valor proporcionado no es un objeto. Valor recibido: "; Json prop; Lit "."].

Definition at_least_one_message (keys : list string) : message :=
  [Lit "El objeto debe tener al menos una clave de las esperadas: ";
   JsonList (map VStr keys); Lit "."].

(** A plain object: not [null], of type "object", no array. *)
Definition plain_object (v : value) : bool :=
  match v with VObj _ _ => true | _ => false end.

(** A value that is a function, as a [types] constructor that was not
    called. *)
Definition is_function (v : value) : Prop :=
  exists h name, v = VFun h name.

(** The double [1.5]. *)
Definition one_and_a_half : spec_float := binary_normalize 53 1024 3 (-1) false.

(** A numeric strictness that passes [strict < 0 || strict > 2] and is
    neither [1] nor [2]. *)
Definition neither_one_nor_two (x : spec_float) : bool :=
  negb (SFltb x (num 0)) && negb (SFltb (num 2) x)
  && negb (SFeqb x (num 1)) && negb (SFeqb x (num 2)).

(** A table whose fields are declared by a name, by a list of names, or
    by a nested table of the same kind that has no truthy [validator]
    entry. *)
Fixpoint simple_table (shapeObj : value) : bool :=
  match shapeObj with
  | VObj _ fields =>
      forallb (fun '(_, spec) =>
                 match spec with
                 | VStr _ => true
                 | VArr _ names =>
                     forallb (fun t => match t with VStr _ => true | _ => false end)
                             names
                 | VObj _ tprops =>
                     negb (truthy (lookup "validator" tprops)) && simple_table spec
                 | _ => false
                 end) fields
  | _ => false
  end.

(** The runtime type of [v] is [k], as a test. *)
Definition has_kind (k : kind) (v : value) : bool :=
  match k, v with
  | Kstring, VStr _ => true
  | Knumber, VNum _ => true
  | Kbool, VBool _ => true
  | Karray, VArr _ _ => true
  | Kobject, VObj _ _ => true
  | Kundefined, VUndefined => true
  | Knull, VNull => true
  | Kfunction, VFun _ _ => true
  | _, _ => false
  end.

(** The basic validator of a primitive kind. *)
Definition validator_of (k : kind) : validators.vname :=
  match k with
  | Kstring => validators.Nstring
  | Knumber => validators.Nnumber
  | Kbool => validators.Nbool
  | Karray => validators.Narray
  | Kobject => validators.Nobject
  | Kundefined => validators.Nundefined
  | Knull => validators.Nnull
  | Kfunction => validators.Nfunction
  end.

(** The primitive kind a name stands for, if any. *)
Definition kind_of_name (s : string) : option kind :=
  if String.eqb s "string" then Some Kstring
  else if String.eqb s "number" then Some Knumber
  else if String.eqb s "bool" then Some Kbool
  else if String.eqb s "array" then Some Karray
  else if String.eqb s "object" then Some Kobject
  else if String.eqb s "undefined" then Some Kundefined
  else if String.eqb s "null" then Some Knull
  else if String.eqb s "function" then Some Kfunction
  else None.

(** The name is that of a primitive kind whose runtime type [v] has. *)
Definition names_kind_of (v : value) (s : string) : bool :=
  match kind_of_name s with
  | Some k => has_kind k v
  | None => false
  end.

(** The name is that of a function that [validators] inherits from
    [Object.prototype]. *)
Definition inherited (s : string) : bool :=
  existsb (String.eqb s) Object_prototype_functions.

(** No class of the program is on the chain of a value with this header:
    it inherits from [Object.prototype] at most. *)
Definition classless (h : header) : bool :=
  forallb (Nat.eqb Object_loc) (protos h).

(** ** Own members of any value *)

(** The key of the array index [i]: its decimal numeral. *)
Definition index_key (i : nat) : string :=
  NilEmpty.string_of_uint (Nat.to_uint i).

(** The entries [("i", x_i)], [("i+1", x_i+1)], ... of a sequence. *)
Fixpoint indexed (i : nat) (items : list value) : list (string * value) :=
  match items with
  | [] => []
  | x :: rest => (index_key i, x) :: indexed (S i) rest
  end.

(** The code units of a string, each as a string of length one. *)
Definition chars (s : string) : list value :=
  map (fun c => VStr (String c EmptyString)) (list_ascii_of_string s).

(** [Object.entries(v)] for a value other than [null] and [undefined]:
    the own enumerable properties, which for an array and a string are
    the indexed elements. *)
Definition own_entries (v : value) : list (string * value) :=
  match v with
  | VObj _ props => props
  | VArr _ items => indexed 0 items
  | VStr s => indexed 0 (chars s)
  | _ => []
  end.

(** [v[k]] for a value other than [null] and [undefined] and a string key:
    for an object as [get] reads it; for the other values an own property,
    the [length] of an array or a string, the [name] of a function (its
    arity, [length], and what the built-in prototypes hold are not part of
    the universe). *)
Definition member_of (v : value) (k : string) : value :=
  match v with
  | VObj _ _ => get v k
  | VArr _ items =>
      if String.eqb k "length" then VNum (num (Z.of_nat (List.length items)))
      else lookup k (indexed 0 items)
  | VStr s =>
      if String.eqb k "length" then VNum (num (Z.of_nat (String.length s)))
      else lookup k (indexed 0 (chars s))
  | VFun _ name => if String.eqb k "name" then VStr name else VUndefined
  | _ => VUndefined
  end.

(** ** [removeKey] *)

(** [const { [keyToRemove]: _, ...rest } = obj; return rest]: a new
    ordinary object with the own enumerable properties of [obj] but
    [keyToRemove]; destructuring [null] or [undefined] throws. *)
Definition removeKey (obj : value) (keyToRemove : string) : comp value :=
  match obj with
  | VUndefined | VNull => Throw TypeError
  | _ =>
      Ret (VObj literal (filter (fun e => negb (String.eqb (fst e) keyToRemove))
                                (own_entries obj)))
  end.

(** ** The effect of [usePropTypes] *)

(** [l.forEach(f)] for a callback that may throw. *)
Fixpoint forEach {A : Type} (f : A -> comp unit) (l : list A) : comp unit :=
  match l with
  | [] => Ret tt
  | x :: rest => bind (f x) (fun _ => forEach f rest)
  end.

Definition indent24 : string := "                        ".

(** [const { type } = value] *)
Definition declared_type (declaration : value) : comp value :=
  match declaration with
  | VUndefined | VNull => Throw TypeError
  | _ => Ret (member_of declaration "type")
  end.

(** [typeof type === 'object' && 'validator' in type
     ? removeKey(type, 'validator') : type] *)
Definition typeInfo (type : value) : comp value :=
  match type with
  | VNull => Throw TypeError
  | VObj _ _ | VArr _ _ =>
      if has type "validator" then removeKey type "validator" else Ret type
  | _ => Ret type
  end.

(** [${validationResult}]: the message, or the text of the function a
    curried validator returned. *)
Definition result_text (r : validators.ret) : message :=
  match r with
  | validators.RTrue => [Lit "true"]
  | validators.RStr m => m
  | validators.RClosure _ _ => [Str (VFun anon "")]
  end.

(** The message of the Error; [label] is [validators.type(props[key])]. *)
Definition invalid_prop_message (key : string) (received : value) (label : string)
           (info : value) (validationResult : validators.ret) : message :=
  [Lit nl; Lit "La propiedad '"; Lit key; Lit "' no es válida."; Lit nl;
   Lit "Valor recibido: "; Json received; Lit nl;
   Lit "Tipo de valor recibido: "; Lit label; Lit nl;
   Lit "Esperado: "; Json info; Lit nl; Lit "Error:"; Lit nl]
  ++ result_text validationResult ++ [Lit nl; Lit indent24].

(** The callback of [Object.entries(propTypes).forEach]. *)
Definition check_prop (props : value) (entry : string * value) : comp unit :=
  let (key, declaration) := entry in
  type <- declared_type declaration ;;
  validationResult <- validateType type (member_of props key) ;;
  if validators.is_true validationResult then Ret tt
  else
    info <- typeInfo type ;;
    label <- validators.type (member_of props key) ;;
    Throw (Error (invalid_prop_message key (member_of props key) label info
                    validationResult)).

(** The function passed to [useEffect]. *)
Definition usePropTypes_effect (props propTypes : value) : comp unit :=
  if truthy props && truthy propTypes
  then forEach (check_prop props) (own_entries propTypes)
  else Ret tt.

(** The check of one declared property: its descriptor read, then
    [validateType] on the property's value. *)
Definition prop_check (props : value) (entry : string * value)
  : comp validators.ret :=
  type <- declared_type (snd entry) ;;
  validateType type (member_of props (fst entry)).

(** ** [hashCode] of [useDataClass] *)

(** ToInt32: a number that is an integer, wrapped to 32 signed bits. *)
Definition ToInt32 (z : Z) : Z :=
  ((z + 2147483648) mod 4294967296 - 2147483648)%Z.

(** [hash << 5] *)
Definition shl5 (hash : Z) : Z := ToInt32 (ToInt32 hash * 32).

(** One turn of the loop:
    [hash = (hash << 5) - hash + char; hash |= 0]. *)
Definition hash_step (hash char : Z) : Z := ToInt32 (shl5 hash - hash + char).

(** A UTF-16 code unit, as [charCodeAt] returns it. *)
Definition code_unit (c : Z) : Prop := (0 <= c < 65536)%Z.

(** The loop of [hashCode] over [str = JSON.stringify(data)], the string
    given by its code units; [JSON.stringify] is the host's. *)
Definition hashCode (str : list Z) : Z := fold_left hash_step str 0%Z.

(** The polynomial in 31 of the code units, first unit highest. *)
Definition polynomial31 (str : list Z) : Z :=
  fold_left (fun h c => (31 * h + c)%Z) str 0%Z.

(** ** Properties *)

Import validators.

(** *** Conversion to text *)

Lemma ToString_primitive (v : value) :
  primitive v = true -> ToString v = Ret (Str v).
Proof. destruct v; try discriminate; reflexivity. Qed.

Lemma ToString_function (h : header) (name : String.string) :
  ToString (VFun h name) = Ret (Str (VFun h name)).
Proof. reflexivity. Qed.

(** A validator that builds a message does not answer [true]. *)
Lemma message_is_not_true (v : value) (f : chunk -> message) :
  (c <- ToString v ;; Ret (RStr (f c))) <> Ret RTrue.
Proof. destruct (ToString v); discriminate. Qed.

Lemma message_reported (v : value) (f : chunk -> message) :
  primitive v = true -> reported (c <- ToString v ;; Ret (RStr (f c))).
Proof. intros Hv. rewrite (ToString_primitive v Hv). right. eexists. reflexivity. Qed.

(** *** Dispatch of [validateType] on the descriptors built by [types] *)

Lemma validateType_basic (k : kind) (h : header) (v : value) :
  validateType (VObj h [("type", VStr (kind_name k))]) v = call (validator_of k) v.
Proof. destruct k; reflexivity. Qed.




(** *** Primitive kinds *)

Lemma call_basic_true (k : kind) (v : value) :
  call (validator_of k) v = Ret RTrue <-> has_kind k v = true.
Proof.
  destruct k; destruct v; cbn -[ToString]; split; intros H;
    try reflexivity; try discriminate H;
    exfalso; revert H; apply message_is_not_true.
Qed.

Lemma has_kind_iff (k : kind) (v : value) :
  has_kind k v = true <-> runtime_type_is k v.
Proof.
  destruct k; destruct v; simpl; split; intros H;
    repeat match goal with
      | H : _ /\ _ |- _ => destruct H
      | H : exists _, _ |- _ => destruct H
      end;
    try discriminate; try congruence; eauto;
    try (repeat split; congruence).
Qed.

(** C6: for each of the eight primitive kinds [k] and every value [v],
    validating [v] against the descriptor of kind [k] succeeds exactly when
    the runtime type of [v] is [k]; the object kind accepts exactly the
    values that are not [null], have [typeof] "object" and are no array. *)
Theorem primitive_kind_iff_runtime_type (k : kind) (h : header) (v : value) :
  validateType (VObj h [("type", VStr (kind_name k))]) v = Ret RTrue
  <-> runtime_type_is k v.
Proof.
  rewrite validateType_basic, call_basic_true. apply has_kind_iff.
Qed.

(** *** Ranges *)

Lemma SFleb_not_SFltb (x y : spec_float) : SFleb x y = true -> SFltb y x = false.
Proof.
  unfold SFleb, SFltb, SFcompare.
  destruct x as [s | s | | s m e], y as [s' | s' | | s' m' e'];
    try destruct s; try destruct s'; simpl; try congruence;
    rewrite (Z.compare_antisym e e');
    pose proof (Pos.compare_cont_antisym m m' Eq) as Ha; simpl in Ha;
    rewrite <- Ha;
    destruct (e ?= e')%Z; simpl; try congruence;
    destruct (Pos.compare_cont Eq m m'); simpl; congruence.
Qed.




(** *** oneOf *)


Lemma non_empty_length {A : Type} (l : list A) :
  l <> [] -> Nat.eqb (List.length l) 0 = false.
Proof. destruct l; [congruence | reflexivity]. Qed.

Lemma oneOf_true_iff (h : header) (options : list value) (v : value) :
  options <> [] ->
  oneOf (VArr h options) v = Ret RTrue <-> includes options v = true.
Proof.
  intros Hne. unfold oneOf. rewrite (non_empty_length options Hne).
  destruct (includes options v); split; intros H; try reflexivity; try discriminate H.
  exfalso. revert H.
  apply (message_is_not_true v
           (fun c => [Lit "El valor '"; c;
                      Lit "' no está entre las opciones permitidas: ";
                      Json (VArr h options)])).
Qed.




(** *** Lists of primitive descriptors reach the validators as names *)

Lemma processedTypes_basic (h : header) (ks : list (header * kind)) :
  processedTypes (VArr h (map basic ks)) = Ret (map kind_key ks).
Proof.
  unfold processedTypes. induction ks as [|hk ks IH]; simpl.
  - reflexivity.
  - rewrite IH. reflexivity.
Qed.

Lemma all_members_kinds (ks : list (header * kind)) :
  all_members (map kind_key ks) = Ret true.
Proof.
  unfold all_members. induction ks as [|[h k] ks IH]; simpl; [reflexivity|].
  destruct k; exact IH.
Qed.

Lemma validateType_arrayOf_kinds (h h' : header) (ks : list (header * kind)) (v : value) :
  validateType (types.arrayOf h (VArr h' (map basic ks))) v
  = arrayOf (VArr anon (map kind_key ks)) v.
Proof.
  change (validateType (types.arrayOf h (VArr h' (map basic ks))) v)
    with (ps <- processedTypes (VArr h' (map basic ks)) ;;
          valid <- all_members ps ;;
          if negb valid then invalid_types "arrayOf" ps
          else arrayOf (VArr anon ps) v).
  rewrite processedTypes_basic. cbn [bind]. now rewrite all_members_kinds.
Qed.

Lemma validateType_oneOfType_kinds (h h' : header) (ks : list (header * kind)) (v : value) :
  validateType (types.oneOfType h (VArr h' (map basic ks))) v
  = oneOfType (VArr anon (map kind_key ks)) v.
Proof.
  change (validateType (types.oneOfType h (VArr h' (map basic ks))) v)
    with (ps <- processedTypes (VArr h' (map basic ks)) ;;
          valid <- all_members ps ;;
          if negb valid then invalid_types "oneOfType" ps
          else oneOfType (VArr anon ps) v).
  rewrite processedTypes_basic. cbn [bind]. now rewrite all_members_kinds.
Qed.




(** *** arrayOf and oneOfType on a value that has no text *)

(** C7: the code departs from the claim on an element that has no text.
    The element [{toString: 1}] satisfies the kind [object], yet
    [arrayOf(['string', 'object'])] throws a TypeError on the array that
    holds it: the kinds are tried in order, and [validators.string], which
    refuses the element, builds its message and so converts the element to
    text.  With the kinds in the other order the same array is accepted. *)
Theorem arrayOf_unprintable_element_throws :
  call Nobject unprintable = Ret RTrue
  /\ arrayOf (VArr literal [VStr "string"; VStr "object"]) (VArr literal [unprintable])
     = Throw TypeError
  /\ arrayOf (VArr literal [VStr "object"; VStr "string"]) (VArr literal [unprintable])
     = Ret RTrue
  /\ validateType
       (types.arrayOf literal (VArr literal [types.string literal; types.object literal]))
       (VArr literal [unprintable])
     = Throw TypeError.
Proof. repeat split. Qed.

(** C8: the code departs from the claim on a value that has no text.  The
    value [{toString: 1}] satisfies the alternative [object], yet
    [oneOfType(['string', 'object'])] throws a TypeError on it: the
    alternatives are tried in order, and [validators.string], which refuses
    the value, builds its message and so converts the value to text.  With
    [object] first the value is accepted and [string] is never tried. *)
Theorem oneOfType_unprintable_value_throws :
  call Nobject unprintable = Ret RTrue
  /\ oneOfType (VArr literal [VStr "string"; VStr "object"]) unprintable
     = Throw TypeError
  /\ oneOfType (VArr literal [VStr "object"; VStr "string"]) unprintable
     = Ret RTrue
  /\ validateType
       (types.oneOfType literal (VArr literal [types.string literal; types.object literal]))
       unprintable
     = Throw TypeError.
Proof. repeat split. Qed.

(** *** Shapes *)

Lemma shape_default (shapeObj prop : value) :
  shape shapeObj VUndefined prop = shape shapeObj (VNum (num 0)) prop.
Proof. destruct shapeObj; reflexivity. Qed.

Lemma shape_lenient_eq (h h' : header) (fields props : list (String.string * value)) :
  shape (VObj h fields) (VNum (num 0)) (VObj h' props)
  = fields_loop shape (VNum (num 0)) (VObj h' props) fields.
Proof. reflexivity. Qed.

Lemma shape_noextra_eq (h h' : header) (fields props : list (String.string * value)) :
  shape (VObj h fields) (VNum (num 1)) (VObj h' props)
  = match no_extra_keys (map fst fields) (VObj h' props) with
    | Some m => Ret (RStr m)
    | None => fields_loop shape (VNum (num 1)) (VObj h' props) fields
    end.
Proof. reflexivity. Qed.

Lemma shape_exact_eq (h h' : header) (fields props : list (String.string * value)) :
  shape (VObj h fields) (VNum (num 2)) (VObj h' props)
  = match exact_keys (map fst fields) (map fst props) with
    | Some m => Ret (RStr m)
    | None => fields_loop shape (VNum (num 2)) (VObj h' props) fields
    end.
Proof. reflexivity. Qed.

Section FieldsLoop.
Variable self : value -> value -> value -> comp ret.
Variable strict : value.

Lemma fields_loop_true_iff (prop : value) (fields : list (String.string * value)) :
  fields_loop self strict prop fields = Ret RTrue
  <-> Forall (fun entry =>
                field_ok self strict (get prop (fst entry)) (snd entry) = Ret true)
             fields.
Proof.
  induction fields as [|[key spec] rest IH]; simpl.
  - split; auto.
  - destruct (field_ok self strict (get prop key) spec) as [[|]|e] eqn:E; simpl.
    + rewrite IH. split; intros H.
      * constructor; [exact E | exact H].
      * now inversion H.
    + split; intros H.
      * destruct (type (get prop key)); discriminate H.
      * inversion H; simpl in *; congruence.
    + split; intros H; [discriminate | inversion H; simpl in *; congruence].
Qed.
End FieldsLoop.




Lemma shape_default_strict (shapeObj strict prop : value) :
  shape shapeObj (default_strict strict) prop = shape shapeObj strict prop.
Proof. destruct shapeObj, strict; reflexivity. Qed.

Lemma validateType_shape (h : header) (shapeObj strict prop : value) :
  validateType (types.shape h shapeObj strict) prop = shape shapeObj strict prop.
Proof.
  change (validateType (types.shape h shapeObj strict) prop)
    with (shape shapeObj (default_strict strict) prop).
  apply shape_default_strict.
Qed.

(** What [shape] goes through before it accepts: the value is an object,
    the key checks of the strictness pass, and the loop over the declared
    keys accepts. *)
Lemma shape_true_inv (h : header) (fields : list (String.string * value))
      (strict prop : value) :
  shape (VObj h fields) strict prop = Ret RTrue ->
  plain_object prop = true
  /\ (strict_equals (default_strict strict) (VNum (num 2)) = true ->
      exact_keys (map fst fields) (Object_keys prop) = None)
  /\ (strict_equals (default_strict strict) (VNum (num 1)) = true ->
      no_extra_keys (map fst fields) prop = None)
  /\ fields_loop shape (default_strict strict) prop fields = Ret RTrue.
Proof.
  intros H. destruct prop; try discriminate H.
  cbn -[num less greater orelse fields_loop exact_keys no_extra_keys strict_equals
        number default_strict] in H.
  destruct (orelse _ _) as [[|]|]; try discriminate H. cbn [bind] in H.
  destruct (number _) as [r|]; try discriminate H. cbn [bind] in H.
  destruct (negb _); [discriminate|].
  destruct (strict_equals _ (VNum (num 2)));
    destruct (strict_equals _ (VNum (num 1)));
    repeat match type of H with
      | match ?c with _ => _ end = _ => destruct c eqn:?; try discriminate H
      end;
    repeat split; intros; try discriminate; auto.
Qed.

Lemma shape_true_fields (h : header) (fields : list (String.string * value))
      (strict prop : value) :
  shape (VObj h fields) strict prop = Ret RTrue ->
  fields_loop shape (default_strict strict) prop fields = Ret RTrue.
Proof. intros H. now apply shape_true_inv in H. Qed.

Lemma is_true_ret (c : comp ret) :
  (r <- c ;; Ret (is_true r)) = Ret true <-> c = Ret RTrue.
Proof.
  destruct c as [[| |]|]; simpl; split; intros H; try discriminate; reflexivity.
Qed.

Lemma field_type_ok_nested (strict v type : value) :
  nested_shape type ->
  field_type_ok shape strict v type = (r <- shape type strict v ;; Ret (is_true r)).
Proof.
  intros [h [tprops [-> Hf]]]. unfold field_type_ok. now rewrite Hf.
Qed.

(** C2: the code departs from the claim and from the documentation of
    [shape], which says of strictness 0 that not all the keys need be
    present: [{a: 1}] is refused by the Lenient shape
    [{a: 'number', b: 'number'}], on the missing key [b], whose descriptor
    is applied to [undefined]; [{a: 1, b: 2}] is accepted. *)
Theorem lenient_missing_field_is_refused :
  validateType
    (types.shape literal (VObj literal [("a", VStr "number"); ("b", VStr "number")])
                 (VNum (num 0)))
    (VObj literal [("a", VNum (num 1))])
  = Ret (RStr (field_message "b" "undefined" (VStr "number")))
  /\ validateType
       (types.shape literal (VObj literal [("a", VStr "number"); ("b", VStr "number")])
                    VUndefined)
       (VObj literal [("a", VNum (num 1))])
     = Ret (RStr (field_message "b" "undefined" (VStr "number")))
  /\ validateType
       (types.shape literal (VObj literal [("a", VStr "number"); ("b", VStr "number")])
                    (VNum (num 0)))
       (VObj literal [("a", VNum (num 1)); ("b", VNum (num 2))])
     = Ret RTrue.
Proof. repeat split. Qed.

(** C4: the code departs from the claim and from the documented use of
    the constructors inside [types.shape]: under Exact validation the
    object [{name: "John", age: 30}] has exactly the declared keys and each
    value has the declared primitive kind, yet it is refused when the
    fields are declared with [types.string()] and [types.number()]: inside
    a table the descriptor [{type: 'string'}] is read as a nested shape
    with the one key [type], and "John" is no object.  Declared by the
    bare names the same object is accepted. *)
Theorem exact_constructed_descriptors_are_refused :
  validateType
    (types.shape literal
       (VObj literal [("name", types.string literal); ("age", types.number literal)])
       (VNum (num 2)))
    (VObj literal [("name", VStr "John"); ("age", VNum (num 30))])
  = Ret (RStr (field_message "name" "string" (types.string literal)))
  /\ validateType (types.string literal) (VStr "John") = Ret RTrue
  /\ validateType (types.number literal) (VNum (num 30)) = Ret RTrue
  /\ validateType
       (types.shape literal (VObj literal [("name", VStr "string"); ("age", VStr "number")])
                    (VNum (num 2)))
       (VObj literal [("name", VStr "John"); ("age", VNum (num 30))])
     = Ret RTrue.
Proof. repeat split. Qed.

(** C5: the code departs from the claim and from the documentation of
    strictness 1, which asks for at least one declared key to be present:
    the empty object holds none of the declared keys, yet it is accepted
    under NoExtra validation by the table [{toString: 'function'}], because
    the value of a missing key is read along the prototype chain and
    [{}.toString] is a function.  With a declared key that
    [Object.prototype] does not define the empty object is refused. *)
Theorem no_extra_inherited_key_is_accepted :
  shape (VObj literal [("toString", VStr "function")]) (VNum (num 1)) (VObj literal [])
  = Ret RTrue
  /\ Object_keys (VObj literal []) = []
  /\ shape (VObj literal [("a", VStr "function")]) (VNum (num 1)) (VObj literal [])
     = Ret (RStr (at_least_one_message ["a"])).
Proof. repeat split. Qed.

(** *** Nested shapes *)







(** *** What is returned and what is thrown *)










(** A [null] alternative in a shape table is read for its [validator]
    property: the check throws a TypeError, whatever the value. *)
Example null_alternative_throws :
  validateType (types.shape anon (VObj anon [("a", VNull)]) VUndefined)
               (VObj anon [("a", VNum (num 1))])
  = Throw TypeError.
Proof. reflexivity. Qed.

(** ** Further properties of the validators *)

(** *** The label of a value *)





(** *** Spellings of a primitive descriptor *)

(** X2: [validateType] reads the kind of a descriptor from its [validator]
    entry, else from its [type] entry, else takes the descriptor itself: a
    primitive kind may be given as [{type: k}], as [{validator: k}] or as
    the bare name [k], with the same result, and a [validator] entry wins
    over a [type] entry wherever it stands in the object. *)
Theorem primitive_descriptor_spellings (k k' : kind) (h : header) (v : value) :
  validateType (VStr (kind_name k)) v
  = validateType (VObj h [("type", VStr (kind_name k))]) v
  /\ validateType (VObj h [("validator", VStr (kind_name k))]) v
     = validateType (VObj h [("type", VStr (kind_name k))]) v
  /\ validateType (VObj h [("type", VStr (kind_name k'));
                           ("validator", VStr (kind_name k))]) v
     = validateType (VObj h [("type", VStr (kind_name k))]) v.
Proof. destruct k, k'; repeat split. Qed.

(** *** Descriptors built by the constructors *)

(** X3: a descriptor built by a constructor of [types] is checked by the
    validator of the same name applied to the constructor's arguments: the
    primitive constructors reach the basic validators; [oneOf],
    [instanceOf], [range] and [shape] reach the curried validators with
    the same options, class, bounds, table and strictness (0 when none is
    given); [arrayOf] and [oneOfType] over primitive descriptors reach the
    curried validators with the names of the kinds. *)
Theorem constructed_descriptor_dispatch (h h' : header) (v : value) :
  (validateType (types.string h) v = string v
   /\ validateType (types.number h) v = number v
   /\ validateType (types.bool h) v = bool v
   /\ validateType (types.array h) v = array v
   /\ validateType (types.object h) v = object v
   /\ validateType (types.undefined h) v = undefined v
   /\ validateType (types.null h) v = null v
   /\ validateType (types.function h) v = function v)
  /\ (forall options, validateType (types.oneOf h options) v = oneOf options v)
  /\ (forall clazz, validateType (types.instanceOf h clazz) v = instanceOf clazz v)
  /\ (forall min max, validateType (types.range h min max) v = range min max v)
  /\ (forall shapeObj strict,
        validateType (types.shape h shapeObj strict) v = shape shapeObj strict v)
  /\ (forall shapeObj,
        validateType (types.shape h shapeObj VUndefined) v
        = shape shapeObj (VNum (num 0)) v)
  /\ (forall ks,
        validateType (types.arrayOf h (VArr h' (map basic ks))) v
        = arrayOf (VArr anon (map kind_key ks)) v)
  /\ (forall ks,
        validateType (types.oneOfType h (VArr h' (map basic ks))) v
        = oneOfType (VArr anon (map kind_key ks)) v).
Proof.
  repeat apply conj; intros;
    first [ reflexivity
          | apply validateType_shape
          | rewrite validateType_shape; apply shape_default
          | apply validateType_arrayOf_kinds
          | apply validateType_oneOfType_kinds ].
Qed.

(** *** Constructors passed without being called *)

Lemma processedTypes_plain (h : header) (ts : list value) :
  Forall (fun t => is_function t \/ (primitive t = true /\ t <> VNull)) ts ->
  processedTypes (VArr h ts) = Ret ts.
Proof.
  unfold processedTypes. induction 1 as [|t ts Ht _ IH]; [reflexivity|].
  cbn [mapM]. rewrite IH.
  destruct Ht as [[hf [name ->]] | [Hp Hn]]; [reflexivity|].
  destruct t; try discriminate Hp; try reflexivity. now contradiction Hn.
Qed.

Lemma is_member_plain (t : value) :
  is_function t \/ (primitive t = true /\ t <> VNull) ->
  exists b, is_member t = Ret b.
Proof.
  intros [[hf [name ->]] | [Hp _]]; [eexists; reflexivity|].
  destruct t; try discriminate Hp; eexists; reflexivity.
Qed.

Lemma all_members_function (ts : list value) :
  Forall (fun t => is_function t \/ (primitive t = true /\ t <> VNull)) ts ->
  Exists is_function ts ->
  all_members ts = Ret false.
Proof.
  unfold all_members. induction 1 as [|t ts Ht Hts IH]; intros Hex.
  - inversion Hex.
  - cbn [every]. inversion Hex as [? ? [hf [name ->]] | ? ? Hex']; subst.
    + reflexivity.
    + destruct (is_member_plain t Ht) as [b ->]. cbn [bind].
      destruct b; [now apply IH | reflexivity].
Qed.

Lemma join_plain (ts : list value) :
  Forall (fun t => is_function t \/ (primitive t = true /\ t <> VNull)) ts ->
  ToString (VArr anon ts) = Ret (Str (VArr anon ts)).
Proof.
  intros H. unfold ToString.
  replace (ToString_throws (VArr anon ts)) with false; [reflexivity|].
  symmetry. cbn [ToString_throws]. apply not_true_is_false. intros E.
  apply existsb_exists in E. destruct E as [t [Hin Ht]].
  rewrite Forall_forall in H. destruct (H t Hin) as [[hf [name ->]] | [Hp _]].
  - discriminate Ht.
  - destruct t; try discriminate Hp; discriminate Ht.
Qed.

(** X4: a list of kinds that holds a function, such as a constructor of
    [types] passed without being called, names no validator there: when
    the kinds are functions and primitives other than [null],
    [validateType] answers an arrayOf or a oneOfType descriptor over the
    list with the invalid-types message, for every value, and the value
    is never looked at. *)
Theorem uncalled_constructor_in_kind_list (h h' : header) (ts : list value) (v : value) :
  Forall (fun t => is_function t \/ (primitive t = true /\ t <> VNull)) ts ->
  Exists is_function ts ->
  validateType (types.arrayOf h (VArr h' ts)) v
  = Ret (RStr (invalid_types_message "arrayOf" ts))
  /\ validateType (types.oneOfType h (VArr h' ts)) v
     = Ret (RStr (invalid_types_message "oneOfType" ts)).
Proof.
  intros Hts Hf. split.
  - change (validateType (types.arrayOf h (VArr h' ts)) v)
      with (ps <- processedTypes (VArr h' ts) ;;
            valid <- all_members ps ;;
            if negb valid then invalid_types "arrayOf" ps
            else arrayOf (VArr anon ps) v).
    rewrite (processedTypes_plain h' ts Hts). cbn [bind].
    rewrite (all_members_function ts Hts Hf). cbn [bind negb].
    unfold invalid_types. now rewrite (join_plain ts Hts).
  - change (validateType (types.oneOfType h (VArr h' ts)) v)
      with (ps <- processedTypes (VArr h' ts) ;;
            valid <- all_members ps ;;
            if negb valid then invalid_types "oneOfType" ps
            else oneOfType (VArr anon ps) v).
    rewrite (processedTypes_plain h' ts Hts). cbn [bind].
    rewrite (all_members_function ts Hts Hf). cbn [bind negb].
    unfold invalid_types. now rewrite (join_plain ts Hts).
Qed.

Lemma uncalled_constructor_in_kind_list_witness :
  validateType
    (types.arrayOf anon (VArr anon [VFun anon "string"; VFun anon "number"]))
    (VArr anon [VStr "a"])
  = Ret (RStr (invalid_types_message "arrayOf"
                 [VFun anon "string"; VFun anon "number"])).
Proof.
  apply (uncalled_constructor_in_kind_list anon anon
           [VFun anon "string"; VFun anon "number"] (VArr anon [VStr "a"])).
  - constructor; [left; now exists anon, "string"|].
    constructor; [left; now exists anon, "number"|]. constructor.
  - left. now exists anon, "string".
Defined.

(** *** Edge behaviour of shape *)

(** X5: [validators.shape] checks its table first and the value second,
    before it reads the strictness: a table that is no plain object is
    answered with the invalid-table message whatever the value and the
    strictness, and for a plain-object table a value that is no plain
    object ([null], an array, a primitive, a function) is answered with the
    not-an-object message whatever the strictness. *)
Theorem shape_checks_table_then_value (shapeObj strict prop : value) :
  (plain_object shapeObj = false ->
   shape shapeObj strict prop = Ret (RStr invalid_table_message))
  /\ (plain_object shapeObj = true -> plain_object prop = false ->
      shape shapeObj strict prop = Ret (RStr (not_an_object_message prop))).
Proof.
  split.
  - intros Ht. destruct shapeObj; try discriminate Ht; reflexivity.
  - intros Ht Hp. destruct shapeObj; try discriminate Ht.
    destruct prop; try discriminate Hp; reflexivity.
Qed.

Lemma shape_checks_table_then_value_witness :
  shape (VArr anon []) (VNum (num 7)) (VObj anon [])
  = Ret (RStr invalid_table_message)
  /\ shape (VObj anon []) (VNum (num 7)) VNull
     = Ret (RStr (not_an_object_message VNull)).
Proof.
  split.
  - apply (shape_checks_table_then_value (VArr anon []) (VNum (num 7)) (VObj anon [])).
    reflexivity.
  - apply (shape_checks_table_then_value (VObj anon []) (VNum (num 7)) VNull);
      reflexivity.
Defined.

(** X6: a strictness that is a boolean or [null] passes the test
    [strict < 0 || strict > 2], where it counts as 0 or 1, and is then
    refused for not being a number: for every table and every object value
    the answer is the not-a-number message followed by the request to
    correct [strict], so [shape(table, true)] accepts nothing. *)
Theorem shape_strict_must_be_a_number
        (h h' : header) (fields props : list (String.string * value)) (strict : value) :
  (strict = VNull \/ exists b, strict = VBool b) ->
  shape (VObj h fields) strict (VObj h' props)
  = Ret (RStr (strict_correction_message strict)).
Proof.
  intros [-> | [[|] ->]]; reflexivity.
Qed.

Lemma shape_strict_must_be_a_number_witness :
  shape (VObj anon [("nested", VObj anon [("key", VStr "number")])]) (VBool true)
        (VObj anon [("nested", VObj anon [("key", VNum (num 0))])])
  = Ret (RStr (strict_correction_message (VBool true))).
Proof.
  apply (shape_strict_must_be_a_number anon anon
           [("nested", VObj anon [("key", VStr "number")])]
           [("nested", VObj anon [("key", VNum (num 0))])] (VBool true)).
  right. now exists true.
Defined.

(** X7: the empty table [{}]: under Lenient validation (and with no
    strictness given) it accepts every object; under Exact validation it
    accepts exactly the objects without own keys; under NoExtra validation
    it accepts no object at all, the empty one included, so a value
    accepted under Exact need not be accepted under NoExtra. *)
Theorem shape_empty_table (h h' : header) (props : list (String.string * value)) :
  shape (VObj h []) (VNum (num 0)) (VObj h' props) = Ret RTrue
  /\ shape (VObj h []) VUndefined (VObj h' props) = Ret RTrue
  /\ (shape (VObj h []) (VNum (num 2)) (VObj h' props) = Ret RTrue <-> props = [])
  /\ (exists m, shape (VObj h []) (VNum (num 1)) (VObj h' props) = Ret (RStr m)).
Proof.
  repeat apply conj.
  - reflexivity.
  - reflexivity.
  - destruct props; [reflexivity | discriminate].
  - intros ->. reflexivity.
  - rewrite shape_noextra_eq. unfold no_extra_keys.
    destruct (Nat.ltb 0 _); eexists; reflexivity.
Qed.

(** *** Identity and zeros in oneOf *)

(** X8: [oneOf] compares an object with the options by identity and never
    by content: an object value is accepted exactly when the options hold
    an object with the same identity; and the two zeros are one option:
    [oneOf([0])] accepts [-0]. *)
Theorem oneOf_objects_by_identity
        (ho h' : header) (options : list value) (props' : list (String.string * value)) :
  options <> [] ->
  (oneOf (VArr ho options) (VObj h' props') = Ret RTrue
   <-> exists h props, In (VObj h props) options /\ loc h = loc h')
  /\ oneOf (VArr ho [VNum (S754_zero false)]) (VNum (S754_zero true)) = Ret RTrue.
Proof.
  intros Hne. split; [|reflexivity].
  rewrite (oneOf_true_iff ho options (VObj h' props') Hne). unfold includes.
  rewrite existsb_exists. split.
  - intros [o [Hin Ho]].
    destruct o; try discriminate Ho. simpl in Ho. apply Nat.eqb_eq in Ho. eauto.
  - intros [h [props [Hin Hl]]]. exists (VObj h props). split; [assumption|].
    simpl. now apply Nat.eqb_eq.
Qed.

Lemma oneOf_objects_by_identity_witness :
  oneOf (VArr anon [VObj {| loc := 1; protos := [] |} [("a", VNum (num 1))]])
        (VObj {| loc := 2; protos := [] |} [("a", VNum (num 1))])
  <> Ret RTrue.
Proof.
  intros H.
  apply (oneOf_objects_by_identity anon {| loc := 2; protos := [] |}
           [VObj {| loc := 1; protos := [] |} [("a", VNum (num 1))]]
           [("a", VNum (num 1))]) in H; [|discriminate].
  destruct H as [h [props [[E | []] Hl]]]. injection E as <- _. discriminate Hl.
Defined.

(** *** NaN and degenerate ranges *)

Lemma SFleb_antisym_eqb (x y : spec_float) :
  SFleb x y && SFleb y x = SFeqb x y.
Proof.
  unfold SFleb, SFeqb, SFcompare.
  destruct x as [s | s | | s m e], y as [s' | s' | | s' m' e'];
    try destruct s; try destruct s'; simpl; try reflexivity;
    rewrite (Z.compare_antisym e e');
    pose proof (Pos.compare_cont_antisym m m' Eq) as Ha; simpl in Ha;
    rewrite <- Ha;
    destruct (e ?= e')%Z; simpl; try reflexivity;
    destruct (Pos.compare_cont Eq m m'); reflexivity.
Qed.

Lemma SFltb_nan_l (y : spec_float) : SFltb NaN y = false.
Proof. reflexivity. Qed.

Lemma SFltb_nan_r (x : spec_float) : SFltb x NaN = false.
Proof. now destruct x. Qed.

Lemma SFleb_nan_l (y : spec_float) : SFleb NaN y = false.
Proof. reflexivity. Qed.

Lemma SFleb_nan_r (x : spec_float) : SFleb x NaN = false.
Proof. now destruct x. Qed.

(** X9: [NaN] is in no range and bounds no range: [range(min, max)]
    refuses the value [NaN] whatever the numeric bounds, and when a bound
    is [NaN] it refuses every value, although [min > max] does not hold and
    no misconfiguration is reported; and a range whose bounds are the same
    number accepts exactly the numbers equal to it. *)
Theorem range_nan_and_point (lo hi x : spec_float) :
  range (VNum lo) (VNum hi) (VNum NaN) <> Ret RTrue
  /\ range (VNum NaN) (VNum hi) (VNum x) <> Ret RTrue
  /\ range (VNum lo) (VNum NaN) (VNum x) <> Ret RTrue
  /\ range (VNum NaN) (VNum hi) (VNum x)
     <> Ret (RStr [Lit "El valor min no puede ser mayor que el valor max."])
  /\ (range (VNum lo) (VNum lo) (VNum x) = Ret RTrue <-> SFeqb lo x = true).
Proof.
  repeat apply conj.
  - unfold range. destruct (SFltb hi lo); [discriminate|].
    destruct lo, hi; simpl; discriminate.
  - unfold range. rewrite SFltb_nan_r.
    destruct (SFltb x NaN || SFltb hi x); [discriminate|].
    rewrite SFleb_nan_l. discriminate.
  - unfold range. rewrite SFltb_nan_l.
    destruct (SFltb x lo || SFltb NaN x); [discriminate|].
    rewrite SFleb_nan_r, andb_false_r. discriminate.
  - unfold range. rewrite SFltb_nan_r.
    destruct (SFltb x NaN || SFltb hi x); [discriminate|].
    rewrite SFleb_nan_l. discriminate.
  - intros H. rewrite <- SFleb_antisym_eqb. revert H. unfold range.
    destruct (SFltb lo lo); [discriminate|].
    destruct (SFltb x lo || SFltb lo x); [discriminate|].
    destruct (SFleb lo x && SFleb x lo); [reflexivity | discriminate].
  - intros H. rewrite <- SFleb_antisym_eqb in H.
    apply andb_true_iff in H. destruct H as [H1 H2].
    assert (Hle : SFleb lo lo = true).
    { unfold SFleb in *. unfold SFcompare in *.
      destruct lo as [s | s | | s m e], x as [s' | s' | | s' m' e'];
        try destruct s; try destruct s'; simpl in *; try congruence;
        rewrite Z.compare_refl, Pos.compare_cont_refl; reflexivity. }
    unfold range.
    rewrite (SFleb_not_SFltb _ _ Hle), (SFleb_not_SFltb _ _ H1),
      (SFleb_not_SFltb _ _ H2), H1, H2. reflexivity.
Qed.

(** *** Strictness levels *)

Lemma value_deep_ind (P : value -> Prop)
      (Hundefined : P VUndefined) (Hnull : P VNull)
      (Hbool : forall b, P (VBool b)) (Hnum : forall x, P (VNum x))
      (Hstr : forall s, P (VStr s))
      (Harr : forall h items, Forall P items -> P (VArr h items))
      (Hobj : forall h props, Forall (fun e => P (snd e)) props -> P (VObj h props))
      (Hfun : forall h name, P (VFun h name)) :
  forall v, P v.
Proof.
  fix IH 1. intros [ | | b | x | s | h items | h props | h name];
    [ apply Hundefined | apply Hnull | apply Hbool | apply Hnum | apply Hstr
    | | | apply Hfun ].
  - apply Harr. induction items as [|x items IHl]; constructor; [apply IH | exact IHl].
  - apply Hobj.
    induction props as [|[k x] props IHl]; constructor; [apply IH | exact IHl].
Qed.

Lemma some_ext {A : Type} (f g : A -> comp Datatypes.bool) (l : list A) :
  Forall (fun x => f x = g x) l -> some f l = some g l.
Proof.
  induction 1 as [|x l Hx _ IH]; simpl; [reflexivity|].
  rewrite Hx, IH. reflexivity.
Qed.

Lemma fields_loop_ext (self self' : value -> value -> value -> comp ret)
      (strict strict' prop : value) (fields : list (String.string * value)) :
  Forall (fun e => field_ok self strict (get prop (fst e)) (snd e)
                   = field_ok self' strict' (get prop (fst e)) (snd e)) fields ->
  fields_loop self strict prop fields = fields_loop self' strict' prop fields.
Proof.
  induction 1 as [|[key spec] rest He _ IH]; simpl; [reflexivity|].
  simpl in He. rewrite He, IH. reflexivity.
Qed.

Lemma shape_neither_eq (x : spec_float) (h h' : header)
      (fields props : list (String.string * value)) :
  neither_one_nor_two x = true ->
  shape (VObj h fields) (VNum x) (VObj h' props)
  = fields_loop shape (VNum x) (VObj h' props) fields.
Proof.
  unfold neither_one_nor_two. intros H.
  apply andb_true_iff in H. destruct H as [H H2].
  apply andb_true_iff in H. destruct H as [H H1].
  apply andb_true_iff in H. destruct H as [Hlo Hhi].
  apply negb_true_iff in Hlo, Hhi, H1, H2.
  cbn -[num fields_loop exact_keys no_extra_keys SFltb SFeqb].
  change (S754_zero false) with (num 0).
  rewrite Hlo. cbn -[num fields_loop exact_keys no_extra_keys SFltb SFeqb].
  rewrite Hhi. cbn -[num fields_loop exact_keys no_extra_keys SFltb SFeqb].
  rewrite H1, H2. reflexivity.
Qed.

Lemma neither_one_nor_two_lenient (x : spec_float) :
  neither_one_nor_two x = true ->
  forall v,
    (forall p, shape v (VNum x) p = shape v (VNum (num 0)) p)
    /\ (forall p, field_type_ok shape (VNum x) p v
                  = field_type_ok shape (VNum (num 0)) p v)
    /\ (forall p, field_ok shape (VNum x) p v = field_ok shape (VNum (num 0)) p v).
Proof.
  intros Hx.
  induction v as [ | | b | y | s | h items IH | h props IH | h name]
    using value_deep_ind;
    try (repeat apply conj; intros p; reflexivity).
  - repeat apply conj; intros p; try reflexivity.
    cbn [field_ok]. apply some_ext. rewrite Forall_forall in IH |- *.
    intros t Ht. now apply (IH t Ht).
  - assert (H1 : forall p, shape (VObj h props) (VNum x) p
                           = shape (VObj h props) (VNum (num 0)) p).
    { intros p. destruct p; try reflexivity.
      rewrite (shape_neither_eq x _ _ _ _ Hx), shape_lenient_eq.
      apply fields_loop_ext. rewrite Forall_forall in IH |- *.
      intros e He. now apply (IH e He). }
    assert (H2 : forall p, field_type_ok shape (VNum x) p (VObj h props)
                           = field_type_ok shape (VNum (num 0)) p (VObj h props)).
    { intros p. unfold field_type_ok.
      destruct (if truthy (lookup "validator" props)
                then member (lookup "validator" props) else Ret None)
        as [[tag|]|e]; cbn [bind]; [reflexivity | | reflexivity].
      now rewrite H1. }
    repeat apply conj; [exact H1 | exact H2 |].
    intros p. cbn [field_ok some]. now rewrite H2.
Qed.

(** X10: a numeric strictness between 0 and 2 that is neither 1 nor 2, a
    fraction such as 1.5 for instance, and also [NaN], which fails every
    comparison, is not refused: [validators.shape] then answers every
    value, at every depth of nesting, exactly as under Lenient
    validation. *)
Theorem odd_strictness_is_lenient (x : spec_float) (shapeObj prop : value) :
  neither_one_nor_two x = true ->
  shape shapeObj (VNum x) prop = shape shapeObj (VNum (num 0)) prop.
Proof.
  intros Hx. now apply (neither_one_nor_two_lenient x Hx shapeObj).
Qed.

Lemma odd_strictness_is_lenient_witness :
  shape (VObj anon [("a", VStr "number")]) (VNum one_and_a_half)
        (VObj anon [("a", VNum (num 1)); ("b", VNum (num 2))])
  = Ret RTrue
  /\ shape (VObj anon [("a", VStr "number")]) (VNum NaN)
           (VObj anon [("a", VNum (num 1)); ("b", VNum (num 2))])
     = Ret RTrue.
Proof.
  split.
  - rewrite (odd_strictness_is_lenient one_and_a_half); reflexivity.
  - rewrite (odd_strictness_is_lenient NaN); reflexivity.
Defined.

Lemma some_single {A : Type} (f : A -> comp Datatypes.bool) (x : A) :
  some f [x] = Ret true -> f x = Ret true.
Proof. cbn [some]. destruct (f x) as [[|]|]; cbn [bind]; intros H; congruence. Qed.

(** *** Lenient is the weakest strictness *)

Lemma some_names_any_strict (strict strict' v : value) (names : list value) :
  forallb (fun t => match t with VStr _ => true | _ => false end) names = true ->
  some (field_type_ok shape strict v) names
  = some (field_type_ok shape strict' v) names.
Proof.
  intros H. apply some_ext. rewrite forallb_forall in H. rewrite Forall_forall.
  intros t Ht. specialize (H t Ht). destruct t; try discriminate H. reflexivity.
Qed.

Lemma simple_table_lenient (s : spec_float) :
  forall v, simple_table v = true ->
    forall p, shape v (VNum s) p = Ret RTrue -> shape v (VNum (num 0)) p = Ret RTrue.
Proof.
  induction v as [ | | b | y | n | h items IH | h props IH | h name]
    using value_deep_ind; try discriminate.
  intros Hok p H.
  destruct (shape_true_inv _ _ _ _ H) as [Hp [_ [_ Hloop]]].
  destruct p; try discriminate Hp.
  rewrite shape_lenient_eq. apply fields_loop_true_iff.
  cbn [default_strict] in Hloop. apply fields_loop_true_iff in Hloop.
  cbn [simple_table] in Hok. rewrite forallb_forall in Hok.
  rewrite Forall_forall in IH, Hloop |- *.
  intros [key spec] He. specialize (Hok _ He). specialize (IH _ He).
  specialize (Hloop _ He). cbn [fst snd] in *.
  destruct spec as [ | | | |name|hn names|hn tprops| ]; try discriminate Hok.
  - exact Hloop.
  - cbn [field_ok] in *.
    now rewrite <- (some_names_any_strict (VNum s) (VNum (num 0)) _ names Hok).
  - apply andb_true_iff in Hok. destruct Hok as [Hf Hsimple].
    apply negb_true_iff in Hf.
    assert (Hn : nested_shape (VObj hn tprops)) by (exists hn, tprops; auto).
    cbn [field_ok] in *. apply some_single in Hloop.
    rewrite (field_type_ok_nested _ _ _ Hn), is_true_ret in Hloop.
    cbn [some]. rewrite (field_type_ok_nested _ _ _ Hn).
    now rewrite (IH Hsimple _ Hloop).
Qed.

(** X11: Lenient is the weakest strictness: for a table whose fields are
    declared by names, by lists of names, or by nested tables of the same
    kind, every value accepted under Exact validation (strict = 2), under
    NoExtra validation (strict = 1) or under any other numeric strictness
    is accepted under Lenient validation (strict = 0), nested shapes
    included. *)
Theorem stricter_acceptance_implies_lenient (s : spec_float) (shapeObj prop : value) :
  simple_table shapeObj = true ->
  shape shapeObj (VNum s) prop = Ret RTrue ->
  shape shapeObj (VNum (num 0)) prop = Ret RTrue.
Proof.
  intros Hok H. now apply (simple_table_lenient s shapeObj).
Qed.

Lemma stricter_acceptance_implies_lenient_witness :
  shape (VObj anon [("nested", VObj anon [("key", VStr "number")])]) (VNum (num 0))
        (VObj anon [("nested", VObj anon [("key", VNum (num 0))])])
  = Ret RTrue.
Proof.
  apply (stricter_acceptance_implies_lenient (num 2)).
  - reflexivity.
  - reflexivity.
Defined.

(** *** Field descriptors inside a table *)

Lemma call_name_primitive (s : String.string) (n : vname) (v : value) :
  primitive v = true -> vname_of_string s = Some n ->
  (r <- call n v ;; Ret (is_true r)) = Ret (names_kind_of v s).
Proof.
  intros Hv Hn. unfold names_kind_of, kind_of_name.
  unfold vname_of_string in Hn.
  repeat match type of Hn with
    | (if String.eqb s ?c then _ else _) = _ =>
        destruct (String.eqb s c);
        [ injection Hn as <-; destruct v; try discriminate Hv; reflexivity |]
    end.
  discriminate Hn.
Qed.

Lemma field_type_ok_name (strict v : value) (s : String.string) :
  primitive v = true ->
  field_type_ok shape strict v (VStr s) = Ret (names_kind_of v s).
Proof.
  intros Hv. unfold field_type_ok.
  destruct (vname_of_string s) as [n|] eqn:En.
  - now apply call_name_primitive.
  - unfold names_kind_of, kind_of_name. unfold vname_of_string in En.
    repeat match type of En with
      | (if String.eqb s ?c then _ else _) = _ =>
          destruct (String.eqb s c); [discriminate En|]
      end.
    reflexivity.
Qed.

Lemma some_names (strict v : value) (names : list String.string) :
  primitive v = true ->
  some (field_type_ok shape strict v) (map VStr names)
  = Ret (existsb (names_kind_of v) names).
Proof.
  intros Hv. induction names as [|s names IH]; [reflexivity|].
  cbn [map some existsb]. rewrite (field_type_ok_name strict v s Hv), IH. cbn [bind].
  now destruct (names_kind_of v s).
Qed.

Lemma satisfies_name_primitive (s : String.string) (v : value) :
  primitive v = true -> vname_of_string s <> None ->
  satisfies (VStr s) v = Ret (names_kind_of v s).
Proof.
  intros Hv Hn. unfold satisfies. cbn [member bind].
  destruct (vname_of_string s) as [n|] eqn:En; [|congruence].
  now apply call_name_primitive.
Qed.

Lemma some_satisfies_names (v : value) (names : list String.string) :
  primitive v = true -> (forall s, In s names -> vname_of_string s <> None) ->
  some (fun t => satisfies t v) (map VStr names)
  = Ret (existsb (names_kind_of v) names).
Proof.
  intros Hv. induction names as [|s names IH]; intros Hn; [reflexivity|].
  cbn [map some existsb].
  rewrite (satisfies_name_primitive s v Hv) by (apply Hn; now left).
  rewrite IH by (intros s' Hs'; apply Hn; now right). cbn [bind].
  now destruct (names_kind_of v s).
Qed.

Lemma all_members_names (names : list String.string) :
  (forall s, In s names -> vname_of_string s <> None) ->
  all_members (map VStr names) = Ret true.
Proof.
  unfold all_members. induction names as [|s names IH]; intros Hn; [reflexivity|].
  cbn [map every is_member member bind]. unfold is_member. cbn [member bind].
  destruct (vname_of_string s) eqn:En; [|exfalso; apply (Hn s); [now left | exact En]].
  apply IH. intros s' Hs'. apply Hn. now right.
Qed.

Lemma oneOfType_many (h : header) (t t' : value) (ts : list value) (v : value)
      (b : Datatypes.bool) :
  all_members (t :: t' :: ts) = Ret true ->
  some (fun u => satisfies u v) (t :: t' :: ts) = Ret b ->
  oneOfType (VArr h (t :: t' :: ts)) v
  = if b then Ret RTrue
    else c <- ToString v ;;
         Ret (RStr [Lit "El valor '"; c;
                    Lit "' no cumple con ninguno de los tipos permitidos: ";
                    Json (VArr h (t :: t' :: ts))]).
Proof.
  intros Hm Hs. unfold oneOfType. rewrite Hm. cbn [bind negb].
  rewrite Hs. cbn [bind]. now destruct b.
Qed.

(** X12: a field whose descriptor is a list of names, none of them the
    name of a function of [Object.prototype], accepts a primitive value
    exactly when one of the names is that of a primitive kind whose runtime
    type the value has; the names of the curried validators, [type] and a
    name of no validator are passed over.  When the list is not empty and
    every name in it names a validator, the field is checked as
    [oneOfType] over the same list checks the value. *)
Theorem field_list_of_names (h h' : header) (strict v : value)
        (names : list String.string) :
  primitive v = true ->
  Forall (fun s => inherited s = false) names ->
  field_ok shape strict v (VArr h (map VStr names))
  = Ret (existsb (names_kind_of v) names)
  /\ (names <> [] -> (forall s, In s names -> vname_of_string s <> None) ->
      field_ok shape strict v (VArr h (map VStr names))
      = (r <- oneOfType (VArr h' (map VStr names)) v ;; Ret (is_true r))).
Proof.
  intros Hv _. split.
  - now apply some_names.
  - intros Hne Hn. cbn [field_ok]. rewrite (some_names strict v names Hv).
    destruct names as [|s [|s' names]]; [congruence | |].
    + unfold oneOfType. rewrite (all_members_names [s] Hn).
      cbn [map member bind existsb negb]. rewrite orb_false_r.
      destruct (vname_of_string s) as [n|] eqn:En;
        [|exfalso; apply (Hn s); [now left | exact En]].
      symmetry. now apply call_name_primitive.
    + cbn [map].
      rewrite (oneOfType_many h' (VStr s) (VStr s') (map VStr names) v
                 (existsb (names_kind_of v) (s :: s' :: names))).
      * destruct (existsb (names_kind_of v) (s :: s' :: names)); [reflexivity|].
        now rewrite (ToString_primitive v Hv).
      * exact (all_members_names (s :: s' :: names) Hn).
      * exact (some_satisfies_names v (s :: s' :: names) Hv Hn).
Qed.

Lemma field_list_of_names_witness :
  field_ok shape (VNum (num 0)) (VNum (num 3)) (VArr anon (map VStr ["string"; "number"]))
  = Ret true
  /\ field_ok shape (VNum (num 0)) (VBool true)
              (VArr anon (map VStr ["string"; "arrayOf"; "date"]))
     = Ret false.
Proof.
  split.
  - destruct (field_list_of_names anon anon (VNum (num 0)) (VNum (num 3))
                ["string"; "number"]) as [H _];
      [reflexivity | repeat constructor | exact H].
  - destruct (field_list_of_names anon anon (VNum (num 0)) (VBool true)
                ["string"; "arrayOf"; "date"]) as [H _];
      [reflexivity | repeat constructor | exact H].
Defined.

(** X13: inside a table, a descriptor built by [types.oneOf],
    [types.instanceOf], [types.range] or [types.shape] is checked exactly
    as [validateType] checks it on its own: the field is accepted when
    [validateType] returns [true]; in particular a tagged shape is checked
    under its own strictness, not under that of the enclosing shape. *)
Theorem tagged_descriptor_in_table (h : header) (strict v : value) :
  (forall options,
     field_type_ok shape strict v (types.oneOf h options)
     = (r <- validateType (types.oneOf h options) v ;; Ret (is_true r)))
  /\ (forall clazz,
        field_type_ok shape strict v (types.instanceOf h clazz)
        = (r <- validateType (types.instanceOf h clazz) v ;; Ret (is_true r)))
  /\ (forall min max,
        field_type_ok shape strict v (types.range h min max)
        = (r <- validateType (types.range h min max) v ;; Ret (is_true r)))
  /\ (forall shapeObj own,
        field_type_ok shape strict v (types.shape h shapeObj own)
        = (r <- validateType (types.shape h shapeObj own) v ;; Ret (is_true r))).
Proof.
  repeat apply conj; intros; reflexivity.
Qed.

Lemma all_members_basic (ks : list (header * kind)) :
  all_members (map basic ks) <> Ret true \/ ks = [].
Proof.
  destruct ks as [|[h k] ks]; [now right|]. left.
  unfold all_members. cbn [map every]. unfold is_member at 1. cbn [basic fst snd member].
  destruct (ToString_throws _); cbn [bind]; discriminate.
Qed.

Lemma arrayOf_descriptor_in_table (h h' : header) (strict v : value)
      (ks : list (header * kind)) :
  field_type_ok shape strict v (types.arrayOf h (VArr h' (map basic ks))) <> Ret true
  /\ field_type_ok shape strict v (types.oneOfType h (VArr h' (map basic ks)))
     <> Ret true.
Proof.
  destruct (all_members_basic ks) as [Hm | ->]; [|split; discriminate].
  split.
  - change (field_type_ok shape strict v (types.arrayOf h (VArr h' (map basic ks))))
      with (r <- arrayOf (VArr h' (map basic ks)) v ;; Ret (is_true r)).
    unfold arrayOf. destruct (all_members (map basic ks)) as [[|]|];
      cbn [bind negb]; try discriminate. congruence.
  - change (field_type_ok shape strict v (types.oneOfType h (VArr h' (map basic ks))))
      with (r <- oneOfType (VArr h' (map basic ks)) v ;; Ret (is_true r)).
    unfold oneOfType. destruct (all_members (map basic ks)) as [[|]|];
      cbn [bind negb]; try discriminate. congruence.
Qed.

(** X14: inside a table, a descriptor built by [types.arrayOf] or
    [types.oneOfType] over primitive descriptors passes its list to the
    validator as it is, with objects where names are expected: the field
    check answers [false] for every value, so a shape that has such a
    descriptor as a field accepts no value at any strictness, although
    [validateType] accepts matching values for the same descriptor on its
    own. *)
Theorem list_descriptor_in_table_is_refused
        (h hd hl : header) (fields : list (String.string * value))
        (key : String.string) (ks : list (header * kind)) (strict prop : value) :
  In (key, types.arrayOf hd (VArr hl (map basic ks))) fields
  \/ In (key, types.oneOfType hd (VArr hl (map basic ks))) fields ->
  shape (VObj h fields) strict prop <> Ret RTrue.
Proof.
  intros Hin H. apply shape_true_fields, fields_loop_true_iff in H.
  rewrite Forall_forall in H.
  destruct (arrayOf_descriptor_in_table hd hl (default_strict strict) (get prop key) ks)
    as [Ha Ho].
  destruct Hin as [Hin | Hin]; specialize (H _ Hin); cbn [fst snd] in H.
  - unfold types.arrayOf in *. cbn [field_ok] in H. apply some_single in H.
    contradiction.
  - unfold types.oneOfType in *. cbn [field_ok] in H. apply some_single in H.
    contradiction.
Qed.

Lemma list_descriptor_in_table_is_refused_witness :
  shape (VObj anon [("tags", types.arrayOf anon (VArr anon (map basic [(anon, Kstring)])))])
        (VNum (num 0)) (VObj anon [("tags", VArr anon [VStr "a"])])
  <> Ret RTrue
  /\ validateType (types.arrayOf anon (VArr anon (map basic [(anon, Kstring)])))
                  (VArr anon [VStr "a"])
     = Ret RTrue.
Proof.
  split; [|reflexivity].
  apply (list_descriptor_in_table_is_refused anon anon anon
           [("tags", types.arrayOf anon (VArr anon (map basic [(anon, Kstring)])))]
           "tags" [(anon, Kstring)]).
  left. now left.
Defined.

(** *** removeKey *)

Lemma lookup_remove (key k : String.string) (props : list (String.string * value)) :
  lookup k (filter (fun e => negb (String.eqb (fst e) key)) props)
  = if String.eqb k key then VUndefined else lookup k props.
Proof.
  induction props as [|[k' x] props IH]; simpl.
  - now destruct (String.eqb k key).
  - destruct (String.eqb k' key) eqn:Ek'; simpl.
    + rewrite IH. destruct (String.eqb k key) eqn:Ek; [reflexivity|].
      destruct (String.eqb k' k) eqn:E; [|reflexivity].
      apply String.eqb_eq in E, Ek'. subst. now rewrite String.eqb_refl in Ek.
    + rewrite IH. destruct (String.eqb k' k) eqn:E; [|reflexivity].
      apply String.eqb_eq in E. subst. now rewrite Ek'.
Qed.

Lemma filter_absent (key : String.string) (props : list (String.string * value)) :
  ~ In key (map fst props) ->
  filter (fun e => negb (String.eqb (fst e) key)) props = props.
Proof.
  induction props as [|[k x] props IH]; simpl; intros H; [reflexivity|].
  destruct (String.eqb k key) eqn:E.
  - apply String.eqb_eq in E. exfalso. apply H. now left.
  - simpl. f_equal. apply IH. intros Hin. apply H. now right.
Qed.

(** X15: [removeKey] of an object returns a new object in which the
    removed key reads [undefined] among the own properties, every other
    key reads as before and keeps its place, and the removed key is not
    among the keys; removing a key the object does not have copies the
    properties unchanged, and removing a key twice is removing it once.
    [null] and [undefined] make it throw a TypeError. *)
Theorem removeKey_removes_one_key
        (h : header) (props : list (String.string * value)) (key : String.string) :
  removeKey VNull key = Throw TypeError
  /\ removeKey VUndefined key = Throw TypeError
  /\ exists rest,
       removeKey (VObj h props) key = Ret (VObj literal rest)
       /\ (forall k, lookup k rest
                     = if String.eqb k key then VUndefined else lookup k props)
       /\ map fst rest
          = filter (fun k => negb (String.eqb k key)) (map fst props)
       /\ ~ In key (map fst rest)
       /\ (~ In key (map fst props) -> rest = props)
       /\ removeKey (VObj literal rest) key = Ret (VObj literal rest).
Proof.
  repeat split.
  exists (filter (fun e => negb (String.eqb (fst e) key)) props).
  assert (Hnot : ~ In key (map fst (filter (fun e => negb (String.eqb (fst e) key)) props))).
  { intros Hin. apply in_map_iff in Hin. destruct Hin as [[k x] [E Hin]].
    apply filter_In in Hin. destruct Hin as [_ Hk]. simpl in *. subst.
    now rewrite String.eqb_refl in Hk. }
  repeat apply conj.
  - reflexivity.
  - intros k. apply lookup_remove.
  - clear Hnot. induction props as [|[k x] props IH]; simpl; [reflexivity|].
    destruct (String.eqb k key); simpl; now rewrite IH.
  - exact Hnot.
  - apply filter_absent.
  - unfold removeKey. cbn [own_entries]. now rewrite (filter_absent key _ Hnot).
Qed.

Lemma removeKey_removes_one_key_witness :
  removeKey (types.oneOf anon (VArr anon [VStr "red"])) "validator"
  = Ret (VObj literal [("options", VArr anon [VStr "red"])]).
Proof.
  destruct (removeKey_removes_one_key anon
              [("validator", VStr "oneOf"); ("options", VArr anon [VStr "red"])]
              "validator") as [_ [_ [rest [Hr _]]]].
  pose proof Hr as Hr'. cbn in Hr'. injection Hr' as <-. exact Hr.
Defined.

(** *** The effect of usePropTypes *)

Lemma forEach_ret_iff {A : Type} (f : A -> comp unit) (l : list A) :
  forEach f l = Ret tt <-> Forall (fun x => f x = Ret tt) l.
Proof.
  induction l as [|x l IH]; simpl.
  - split; auto.
  - destruct (f x) as [[]|e] eqn:E; simpl.
    + rewrite IH. split; intros H; [now constructor | now inversion H].
    + split; intros H; [discriminate | inversion H; congruence].
Qed.

Lemma forEach_first_throw {A : Type} (f : A -> comp unit) (pre post : list A)
      (x : A) (e : error) :
  Forall (fun y => f y = Ret tt) pre -> f x = Throw e ->
  forEach f (pre ++ x :: post) = Throw e.
Proof.
  induction 1 as [|y pre Hy _ IH]; simpl; intros Hx.
  - now rewrite Hx.
  - rewrite Hy. simpl. now apply IH.
Qed.

Lemma check_prop_ret_iff (props : value) (entry : String.string * value) :
  check_prop props entry = Ret tt <-> prop_check props entry = Ret RTrue.
Proof.
  destruct entry as [key declaration]. unfold check_prop, prop_check. cbn [fst snd].
  destruct (declared_type declaration) as [t|e]; cbn [bind]; [|split; discriminate].
  destruct (validateType t (member_of props key)) as [[| |]|e]; cbn [bind is_true];
    try (split; [reflexivity | reflexivity]);
    try (split; discriminate);
    destruct (typeInfo t); cbn [bind]; try (split; discriminate);
    destruct (type (member_of props key)); cbn [bind]; split; discriminate.
Qed.

Lemma get_agree_on (hp hp' : header) (props props' : list (String.string * value))
      (declared : list (String.string * value)) :
  (forall k, In k (map fst declared) ->
     get (VObj hp props) k = get (VObj hp' props') k) ->
  forEach (check_prop (VObj hp props)) declared
  = forEach (check_prop (VObj hp' props')) declared.
Proof.
  intros Hagree.
  induction declared as [|[key d] rest IH]; [reflexivity|].
  cbn [forEach]. rewrite IH by (intros k Hk; apply Hagree; now right).
  unfold check_prop at 1 3. cbn [member_of].
  rewrite (Hagree key) by now left. reflexivity.
Qed.

(** X16: the effect of [usePropTypes] on an object of props that is an
    instance of no class and an object of declarations completes without
    throwing exactly when, for every declared property in turn, the
    declared descriptor can be read and [validateType] returns [true] for
    what the props hold under the key; two objects of props that read the
    same under every declared key have the same effect, so props that are
    not declared are never looked at; and when the props or the
    declarations are missing ([null], [undefined]) the effect checks
    nothing. *)
Theorem usePropTypes_passes_iff
        (hp ht : header) (props propTypes : list (String.string * value)) :
  classless hp = true ->
  (usePropTypes_effect (VObj hp props) (VObj ht propTypes) = Ret tt
   <-> Forall (fun entry => prop_check (VObj hp props) entry = Ret RTrue) propTypes)
  /\ (forall hp' props',
        classless hp' = true ->
        (forall k, In k (map fst propTypes) ->
           get (VObj hp props) k = get (VObj hp' props') k) ->
        usePropTypes_effect (VObj hp' props') (VObj ht propTypes)
        = usePropTypes_effect (VObj hp props) (VObj ht propTypes))
  /\ (forall other,
        usePropTypes_effect VNull other = Ret tt
        /\ usePropTypes_effect VUndefined other = Ret tt
        /\ usePropTypes_effect other VNull = Ret tt
        /\ usePropTypes_effect other VUndefined = Ret tt).
Proof.
  intros _. split; [|split].
  - unfold usePropTypes_effect. cbn [truthy andb own_entries].
    rewrite forEach_ret_iff. split; intros H; (eapply Forall_impl; [|exact H]);
      intros entry; apply check_prop_ret_iff.
  - intros hp' props' _ Hagree. unfold usePropTypes_effect.
    cbn [truthy andb own_entries]. symmetry. now apply get_agree_on.
  - intros other. unfold usePropTypes_effect. cbn [truthy andb].
    rewrite andb_false_r. repeat split.
Qed.

Lemma usePropTypes_passes_iff_witness :
  usePropTypes_effect
    (VObj literal [("name", VStr "John"); ("age", VNum (num 30)); ("other", VNull)])
    (VObj literal [("name", VObj literal [("type", types.string literal)]);
                   ("age", VObj literal [("type", types.number literal)])])
  = Ret tt.
Proof.
  destruct (usePropTypes_passes_iff literal literal
              [("name", VStr "John"); ("age", VNum (num 30))]
              [("name", VObj literal [("type", types.string literal)]);
               ("age", VObj literal [("type", types.number literal)])])
    as [_ [Hagree _]]; [reflexivity|].
  rewrite (Hagree literal
             [("name", VStr "John"); ("age", VNum (num 30)); ("other", VNull)]).
  - reflexivity.
  - reflexivity.
  - intros k [<- | [<- | []]]; reflexivity.
Defined.



Lemma effect_first_throw (hp ht : header) (props pre post : list (String.string * value))
      (entry : String.string * value) (e : error) :
  Forall (fun entry' => prop_check (VObj hp props) entry' = Ret RTrue) pre ->
  check_prop (VObj hp props) entry = Throw e ->
  usePropTypes_effect (VObj hp props) (VObj ht (pre ++ entry :: post)) = Throw e.
Proof.
  intros Hpre He. unfold usePropTypes_effect. cbn [truthy andb own_entries].
  apply forEach_first_throw; [|exact He].
  eapply Forall_impl; [|exact Hpre]. intros entry'. apply check_prop_ret_iff.
Qed.



(** X18: a declaration whose [type] is a function, as when a constructor
    of [types] is given without being called ([{type: types.string}]), is
    not a descriptor of a recognised kind: when the effect of
    [usePropTypes] reaches it, it throws the unknown-type Error whatever
    the value of the prop. *)
Theorem usePropTypes_uncalled_constructor
        (hp ht hd hf : header) (props pre post : list (String.string * value))
        (key name : String.string) :
  Forall (fun entry => prop_check (VObj hp props) entry = Ret RTrue) pre ->
  usePropTypes_effect (VObj hp props)
    (VObj ht (pre ++ (key, VObj hd [("type", VFun hf name)]) :: post))
  = Throw (unknown_type (VFun hf name)).
Proof.
  intros Hpre. apply effect_first_throw; [exact Hpre | reflexivity].
Qed.

Lemma usePropTypes_uncalled_constructor_witness :
  usePropTypes_effect
    (VObj anon [("name", VStr "John"); ("age", VNum (num 30))])
    (VObj anon [("name", VObj anon [("type", VFun anon "string")]);
                ("age", VObj anon [("type", VFun anon "number")])])
  = Throw (unknown_type (VFun anon "string")).
Proof.
  apply (usePropTypes_uncalled_constructor anon anon anon anon
           [("name", VStr "John"); ("age", VNum (num 30))] []
           [("age", VObj anon [("type", VFun anon "number")])] "name" "string").
  constructor.
Defined.

(** *** hashCode *)

Lemma ToInt32_range (z : Z) : (-2147483648 <= ToInt32 z < 2147483648)%Z.
Proof.
  unfold ToInt32.
  pose proof (Z.mod_pos_bound (z + 2147483648) 4294967296 eq_refl). lia.
Qed.

Lemma ToInt32_decomp (z : Z) : exists q, ToInt32 z = (z + 4294967296 * q)%Z.
Proof.
  unfold ToInt32. exists (- ((z + 2147483648) / 4294967296))%Z.
  rewrite Z.mod_eq by lia. lia.
Qed.

Lemma ToInt32_congr (a b q : Z) : a = (b + 4294967296 * q)%Z -> ToInt32 a = ToInt32 b.
Proof.
  intros ->. unfold ToInt32.
  replace (b + 4294967296 * q + 2147483648)%Z
    with (b + 2147483648 + q * 4294967296)%Z by lia.
  now rewrite Z.mod_add by lia.
Qed.

Lemma hash_step_31 (h h' c : Z) :
  h = ToInt32 h' -> hash_step h c = ToInt32 (31 * h' + c).
Proof.
  intros ->. unfold hash_step, shl5.
  destruct (ToInt32_decomp h') as [q0 E0].
  destruct (ToInt32_decomp (ToInt32 h')) as [q1 E1].
  destruct (ToInt32_decomp (ToInt32 (ToInt32 h') * 32)) as [q2 E2].
  apply (ToInt32_congr _ _ (32 * q1 + 31 * q0 + q2)). lia.
Qed.

Lemma hash_loop_31 (str : list Z) (h h' : Z) :
  h = ToInt32 h' ->
  fold_left hash_step str h
  = ToInt32 (fold_left (fun a c => (31 * a + c)%Z) str h').
Proof.
  revert h h'. induction str as [|c str IH]; intros h h' E; simpl.
  - exact E.
  - apply IH. now apply hash_step_31.
Qed.

(** X19: [hashCode] computes the hash of Java's [String.hashCode] over the
    code units of [JSON.stringify(data)]: the polynomial in 31 of the
    units wrapped to 32 signed bits; the result always lies between -2^31
    and 2^31 - 1, is 0 for the empty string, and appending a unit [c] to a
    string of hash [h] gives the wrapped [31 * h + c]. *)
Theorem hashCode_is_polynomial_31 (str : list Z) :
  Forall code_unit str ->
  hashCode str = ToInt32 (polynomial31 str)
  /\ (-2147483648 <= hashCode str < 2147483648)%Z
  /\ hashCode [] = 0%Z
  /\ (forall c, code_unit c ->
        hashCode (str ++ [c]) = ToInt32 (31 * hashCode str + c)).
Proof.
  intros _.
  assert (H : forall s, hashCode s = ToInt32 (polynomial31 s)).
  { intros s. apply hash_loop_31. reflexivity. }
  split; [|split; [|split]].
  - apply H.
  - rewrite H. apply ToInt32_range.
  - reflexivity.
  - intros c _. unfold hashCode. rewrite fold_left_app. cbn [fold_left].
    apply hash_step_31. fold (hashCode str).
    destruct (ToInt32_decomp (hashCode str)) as [q E].
    pose proof (ToInt32_range (hashCode str)) as R.
    assert (Hr : (-2147483648 <= hashCode str < 2147483648)%Z)
      by (rewrite H; apply ToInt32_range).
    unfold ToInt32. rewrite Z.mod_small by lia. lia.
Qed.

Lemma hashCode_is_polynomial_31_witness :
  hashCode [123; 125]%Z = 3938%Z
  /\ hashCode [65535; 65535; 65535; 65535; 65535; 65535; 65535]%Z
     = ToInt32 (polynomial31 [65535; 65535; 65535; 65535; 65535; 65535; 65535]%Z).
Proof.
  split.
  - destruct (hashCode_is_polynomial_31 [123; 125]%Z) as [H _].
    + repeat constructor; unfold code_unit; lia.
    + rewrite H. reflexivity.
  - apply hashCode_is_polynomial_31.
    repeat constructor; unfold code_unit; lia.
Defined.

(** *** instanceOf *)

(** X20: [instanceOf] accepts exactly the arrays and the objects that
    have the prototype of the class on their chain, the class being a
    function; a primitive, [null] and a function are refused whatever the
    class, a function even when the class is on its own chain. *)
Theorem instanceOf_accepts_iff (clazz v : value) :
  (instanceOf clazz v = Ret RTrue
   <-> exists c name h,
         clazz = VFun c name
         /\ ((exists items, v = VArr h items) \/ (exists props, v = VObj h props))
         /\ In (loc c) (protos h))
  /\ (forall h name, instanceOf clazz (VFun h name) <> Ret RTrue).
Proof.
  split.
  - split.
    + destruct clazz as [ | | | | | | |c name]; try discriminate.
      unfold instanceOf.
      destruct v as [ | |b|x|s|h items|h props|h name'];
        cbn -[ToString];
        try (intros H; exfalso; revert H; apply message_is_not_true);
        (destruct (existsb (Nat.eqb (loc c)) (protos h)) eqn:E;
         [ intros _; apply existsb_exists in E; destruct E as [l [Hin El]];
           apply Nat.eqb_eq in El; subst; eauto 10
         | intros H; exfalso; revert H;
           apply (message_is_not_true _
                    (fun c0 => [Lit "El valor '"; c0; Lit "' no es una instancia de ";
                                Lit name; Lit "."])) ]).
    + intros [c [name [h [-> [[[items ->] | [props ->]] Hin]]]]];
        unfold instanceOf; cbn -[ToString];
        replace (existsb (Nat.eqb (loc c)) (protos h)) with true;
        try reflexivity; symmetry; apply existsb_exists; exists (loc c);
        split; try assumption; apply Nat.eqb_refl.
  - intros h name. destruct clazz; discriminate.
Qed.

(** *** Kind lists that cannot be read *)




(** *** Spellings of a primitive descriptor inside a table *)

(** X22: of the three spellings of a primitive descriptor that
    [validateType] accepts, a table accepts one: the bare name is checked
    as [validateType] checks it; [{validator: k}] calls the basic validator
    on no argument and then calls its result, which throws a TypeError for
    every value; and [{type: k}] is read as a nested shape with the key
    [type], so that a value that is no plain object is refused. *)
Theorem primitive_spellings_in_table (k : kind) (h : header) (strict v : value) :
  field_type_ok shape strict v (VStr (kind_name k))
  = (r <- validateType (VStr (kind_name k)) v ;; Ret (is_true r))
  /\ field_type_ok shape strict v (VObj h [("validator", VStr (kind_name k))])
     = Throw TypeError
  /\ field_type_ok shape strict v (VObj h [("type", VStr (kind_name k))])
     = (r <- shape (VObj h [("type", VStr (kind_name k))]) strict v ;;
        Ret (is_true r))
  /\ (plain_object v = false ->
      field_type_ok shape strict v (VObj h [("type", VStr (kind_name k))])
      = Ret false).
Proof.
  repeat apply conj.
  - destruct k; reflexivity.
  - destruct k; reflexivity.
  - reflexivity.
  - intros Hv. destruct v; try discriminate Hv; reflexivity.
Qed.

Lemma primitive_spellings_in_table_witness :
  field_type_ok shape (VNum (num 0)) (VNum (num 1)) (VObj anon [("type", VStr "number")])
  = Ret false.
Proof.
  apply (primitive_spellings_in_table Knumber anon (VNum (num 0)) (VNum (num 1))).
  reflexivity.
Defined.
